(** * Job board clients of the Research and Preparation agent

    A shallow embedding of [tests/job_search/test_job_board.py]: the
    [JobPosting] dataclass, the three [JobBoardInterface] implementations
    ([LinkedInJobBoard], [IndeedJobBoard], [GlassdoorJobBoard]) and
    [JobBoardFactory.create], followed by the properties of these
    operations.

    Conventions of the embedding.
    - Python [int] is [Z], [str] is [string], [Optional[T]] is [option T],
      [List[T]] is [list T], the [Dict] stored in [raw_data] is a
      [gmap string string].
    - [datetime.now()] reads the system clock: every operation that calls
      it takes the value read as its argument [now].
    - A method that can raise returns a [result]; a method of an instance
      returns its result together with the instance after the call. *)

From Stdlib Require Import ZArith String Ascii List Lia PrimFloat.
From stdpp Require Import base list strings gmap.

Open Scope string_scope.
Open Scope Z_scope.

(** ** Exceptions and results *)

(** A raised exception: the name of its class and its message. *)
Record exn := mk_exn { exn_class : string; exn_msg : string }.

Inductive result (A : Type) : Type :=
| Returned (a : A)
| Raised (e : exn).
Arguments Returned {A} a.
Arguments Raised {A} e.

(** [raises c r]: the call ended by raising an exception of class [c]. *)
Definition raises {A} (c : string) (r : result A) : bool :=
  match r with
  | Returned _ => false
  | Raised e => String.eqb (exn_class e) c
  end.

(** ** The [JobPosting] dataclass *)

(** [datetime] values, as a count of microseconds. *)
Definition datetime := Z.

Record JobPosting := mk_JobPosting {
  id : string;
  title : string;
  company : string;
  location : string;
  description : string;
  url : string;
  date_posted : datetime;
  salary_info : option string;
  job_type : option string;
  requirements : option (list string);
  is_remote : bool;
  raw_data : option (gmap string string)
}.

(** The decorator is the plain [@dataclass]: its [frozen] option keeps the
    default [False], so the generated class accepts assignments to the
    fields of an instance. *)
Definition JobPosting_frozen : bool := false.

(** An assignment [posting.<field> = v]. *)
Inductive field_value : Type :=
| Set_id (v : string)
| Set_title (v : string)
| Set_company (v : string)
| Set_location (v : string)
| Set_description (v : string)
| Set_url (v : string)
| Set_date_posted (v : datetime)
| Set_salary_info (v : option string)
| Set_job_type (v : option string)
| Set_requirements (v : option (list string))
| Set_is_remote (v : bool)
| Set_raw_data (v : option (gmap string string)).

Definition assign (fv : field_value) (p : JobPosting) : JobPosting :=
  let '(mk_JobPosting i t c l d u dp s j r rm rd) := p in
  match fv with
  | Set_id v => mk_JobPosting v t c l d u dp s j r rm rd
  | Set_title v => mk_JobPosting i v c l d u dp s j r rm rd
  | Set_company v => mk_JobPosting i t v l d u dp s j r rm rd
  | Set_location v => mk_JobPosting i t c v d u dp s j r rm rd
  | Set_description v => mk_JobPosting i t c l v u dp s j r rm rd
  | Set_url v => mk_JobPosting i t c l d v dp s j r rm rd
  | Set_date_posted v => mk_JobPosting i t c l d u v s j r rm rd
  | Set_salary_info v => mk_JobPosting i t c l d u dp v j r rm rd
  | Set_job_type v => mk_JobPosting i t c l d u dp s v r rm rd
  | Set_requirements v => mk_JobPosting i t c l d u dp s j v rm rd
  | Set_is_remote v => mk_JobPosting i t c l d u dp s j r v rd
  | Set_raw_data v => mk_JobPosting i t c l d u dp s j r rm v
  end.

(** A posting with its [date_posted] replaced by a fixed value: two
    postings that differ in the timestamp only have the same image. *)
Definition erase_date (p : JobPosting) : JobPosting :=
  assign (Set_date_posted 0) p.

(** ** Python list slicing *)

(** [l[:stop]] for an [int] [stop]: a negative [stop] counts from the end,
    and the bound is clamped to [0 .. len(l)]. *)
Definition py_slice_to {A} (l : list A) (stop : Z) : list A :=
  let n := Z.of_nat (length l) in
  let stop := if stop <? 0 then Z.max 0 (stop + n) else Z.min stop n in
  take (Z.to_nat stop) l.

(** [sub in s] on strings. *)
Definition contains (s sub : string) : Prop :=
  exists pre post : string, s = pre +:+ sub +:+ post.

(** ** Job board instances *)

(** The concrete class of an instance of [JobBoardInterface]. *)
Inductive board_class : Type := LinkedIn | Indeed | Glassdoor.

(** The attributes every [__init__] sets on [self]. *)
Record JobBoard := mk_JobBoard {
  cls : board_class;
  _api_key : option string;
  _rate_limited : bool;
  _last_request_time : option float;
  _min_request_interval : float
}.

(** The instance with its three rate-limit attributes replaced. *)
Definition with_rate_fields (self : JobBoard)
    (rate_limited : bool) (last_request_time : option float)
    (min_request_interval : float) : JobBoard :=
  {| cls := cls self;
     _api_key := _api_key self;
     _rate_limited := rate_limited;
     _last_request_time := last_request_time;
     _min_request_interval := min_request_interval |}.

(** ** The three implementations of [JobBoardInterface]

    Each module holds the methods of one class.  [search] and
    [get_job_details] assign to no attribute of [self], so the instance
    they return is the one they received. *)

Module LinkedInJobBoard.

Definition __init__ (api_key : option string) : JobBoard :=
  {| cls := LinkedIn;
     _api_key := api_key;
     _rate_limited := false;
     _last_request_time := None;
     _min_request_interval := 1.0%float |}.

Definition name (self : JobBoard) : string := "LinkedIn".

(** The posting [search] builds; [now] is the value of [datetime.now()]. *)
Definition mock_job (now : datetime) : JobPosting :=
  {| id := "linkedin-job-123";
     title := "Senior Software Engineer";
     company := "Tech Company Inc.";
     location := "San Francisco, CA";
     description := "We're looking for a senior software engineer...";
     url := "https://linkedin.com/jobs/view/123";
     date_posted := now;
     salary_info := Some "$120,000 - $150,000";
     job_type := Some "full-time";
     requirements := Some ["Python"; "AWS"; "5+ years experience"];
     is_remote := true;
     raw_data := Some {["original_data" := "would be here"]} |}.

Definition search (self : JobBoard)
    (keywords : list string)
    (location : option string)
    (radius : option Z)
    (job_type : option (list string))
    (remote : bool)
    (experience_level : option (list string))
    (posted_within_days : option Z)
    (limit : Z)
    (now : datetime) : result (list JobPosting) * JobBoard :=
  let mock_results : list JobPosting := [] in
  let mock_job := mock_job now in
  let mock_results := (mock_results ++ [mock_job])%list in
  (Returned (py_slice_to mock_results limit), self).

(** The posting [get_job_details] builds. *)
Definition job_details (job_id : string) (now : datetime) : JobPosting :=
  {| id := job_id;
     title := "Senior Software Engineer";
     company := "Tech Company Inc.";
     location := "San Francisco, CA";
     description := "Detailed job description with requirements...";
     url := "https://linkedin.com/jobs/view/" +:+ job_id;
     date_posted := now;
     salary_info := Some "$120,000 - $150,000";
     job_type := Some "full-time";
     requirements := Some ["Python"; "AWS"; "5+ years experience"];
     is_remote := true;
     raw_data := Some {["original_data" := "would be here"]} |}.

Definition get_job_details (self : JobBoard) (job_id : string)
    (now : datetime) : result JobPosting * JobBoard :=
  (Returned (job_details job_id now), self).

Definition is_rate_limited (self : JobBoard) : result bool * JobBoard :=
  (Returned (_rate_limited self), self).

End LinkedInJobBoard.

Module IndeedJobBoard.

Definition __init__ (api_key : option string) : JobBoard :=
  {| cls := Indeed;
     _api_key := api_key;
     _rate_limited := false;
     _last_request_time := None;
     _min_request_interval := 1.5%float |}.

Definition name (self : JobBoard) : string := "Indeed".

(** The posting [search] builds; [now] is the value of [datetime.now()]. *)
Definition mock_job (now : datetime) : JobPosting :=
  {| id := "indeed-job-456";
     title := "Python Developer";
     company := "Software Solutions LLC";
     location := "New York, NY";
     description := "Looking for a Python developer with web experience...";
     url := "https://indeed.com/jobs/view/456";
     date_posted := now;
     salary_info := Some "$90,000 - $110,000";
     job_type := Some "full-time";
     requirements := Some ["Python"; "Django"; "3+ years experience"];
     is_remote := false;
     raw_data := Some {["original_data" := "would be here"]} |}.

Definition search (self : JobBoard)
    (keywords : list string)
    (location : option string)
    (radius : option Z)
    (job_type : option (list string))
    (remote : bool)
    (experience_level : option (list string))
    (posted_within_days : option Z)
    (limit : Z)
    (now : datetime) : result (list JobPosting) * JobBoard :=
  let mock_results : list JobPosting := [] in
  let mock_job := mock_job now in
  let mock_results := (mock_results ++ [mock_job])%list in
  (Returned (py_slice_to mock_results limit), self).

(** The posting [get_job_details] builds. *)
Definition job_details (job_id : string) (now : datetime) : JobPosting :=
  {| id := job_id;
     title := "Python Developer";
     company := "Software Solutions LLC";
     location := "New York, NY";
     description := "Detailed job description for Python developer role...";
     url := "https://indeed.com/jobs/view/" +:+ job_id;
     date_posted := now;
     salary_info := Some "$90,000 - $110,000";
     job_type := Some "full-time";
     requirements := Some ["Python"; "Django"; "3+ years experience"];
     is_remote := false;
     raw_data := Some {["original_data" := "would be here"]} |}.

Definition get_job_details (self : JobBoard) (job_id : string)
    (now : datetime) : result JobPosting * JobBoard :=
  (Returned (job_details job_id now), self).

Definition is_rate_limited (self : JobBoard) : result bool * JobBoard :=
  (Returned (_rate_limited self), self).

End IndeedJobBoard.

Module GlassdoorJobBoard.

Definition __init__ (api_key : option string) : JobBoard :=
  {| cls := Glassdoor;
     _api_key := api_key;
     _rate_limited := false;
     _last_request_time := None;
     _min_request_interval := 2.0%float |}.

Definition name (self : JobBoard) : string := "Glassdoor".

(** The posting [search] builds; [now] is the value of [datetime.now()]. *)
Definition mock_job (now : datetime) : JobPosting :=
  {| id := "glassdoor-job-789";
     title := "Frontend Developer";
     company := "WebUI Technologies";
     location := "Austin, TX";
     description := "Seeking a skilled frontend developer...";
     url := "https://glassdoor.com/jobs/view/789";
     date_posted := now;
     salary_info := Some "$85,000 - $105,000";
     job_type := Some "full-time";
     requirements := Some ["JavaScript"; "React"; "2+ years experience"];
     is_remote := true;
     raw_data := Some {["original_data" := "would be here"]} |}.

Definition search (self : JobBoard)
    (keywords : list string)
    (location : option string)
    (radius : option Z)
    (job_type : option (list string))
    (remote : bool)
    (experience_level : option (list string))
    (posted_within_days : option Z)
    (limit : Z)
    (now : datetime) : result (list JobPosting) * JobBoard :=
  let mock_results : list JobPosting := [] in
  let mock_job := mock_job now in
  let mock_results := (mock_results ++ [mock_job])%list in
  (Returned (py_slice_to mock_results limit), self).

(** The posting [get_job_details] builds. *)
Definition job_details (job_id : string) (now : datetime) : JobPosting :=
  {| id := job_id;
     title := "Frontend Developer";
     company := "WebUI Technologies";
     location := "Austin, TX";
     description := "Detailed job description for frontend developer role...";
     url := "https://glassdoor.com/jobs/view/" +:+ job_id;
     date_posted := now;
     salary_info := Some "$85,000 - $105,000";
     job_type := Some "full-time";
     requirements := Some ["JavaScript"; "React"; "2+ years experience"];
     is_remote := true;
     raw_data := Some {["original_data" := "would be here"]} |}.

Definition get_job_details (self : JobBoard) (job_id : string)
    (now : datetime) : result JobPosting * JobBoard :=
  (Returned (job_details job_id now), self).

Definition is_rate_limited (self : JobBoard) : result bool * JobBoard :=
  (Returned (_rate_limited self), self).

End GlassdoorJobBoard.

(** ** Method calls through [JobBoardInterface]

    A call [board.search(...)] on a [JobBoardInterface] runs the method
    of the class of [board]. *)

Definition name (self : JobBoard) : string :=
  match cls self with
  | LinkedIn => LinkedInJobBoard.name self
  | Indeed => IndeedJobBoard.name self
  | Glassdoor => GlassdoorJobBoard.name self
  end.

Definition search (self : JobBoard)
    (keywords : list string)
    (location : option string)
    (radius : option Z)
    (job_type : option (list string))
    (remote : bool)
    (experience_level : option (list string))
    (posted_within_days : option Z)
    (limit : Z)
    (now : datetime) : result (list JobPosting) * JobBoard :=
  match cls self with
  | LinkedIn =>
      LinkedInJobBoard.search self keywords location radius job_type remote
        experience_level posted_within_days limit now
  | Indeed =>
      IndeedJobBoard.search self keywords location radius job_type remote
        experience_level posted_within_days limit now
  | Glassdoor =>
      GlassdoorJobBoard.search self keywords location radius job_type remote
        experience_level posted_within_days limit now
  end.

Definition get_job_details (self : JobBoard) (job_id : string)
    (now : datetime) : result JobPosting * JobBoard :=
  match cls self with
  | LinkedIn => LinkedInJobBoard.get_job_details self job_id now
  | Indeed => IndeedJobBoard.get_job_details self job_id now
  | Glassdoor => GlassdoorJobBoard.get_job_details self job_id now
  end.

Definition is_rate_limited (self : JobBoard) : result bool * JobBoard :=
  match cls self with
  | LinkedIn => LinkedInJobBoard.is_rate_limited self
  | Indeed => IndeedJobBoard.is_rate_limited self
  | Glassdoor => GlassdoorJobBoard.is_rate_limited self
  end.

(** The posting the [search] of a class builds, and the one its
    [get_job_details] builds. *)
Definition mock_job_of (c : board_class) (now : datetime) : JobPosting :=
  match c with
  | LinkedIn => LinkedInJobBoard.mock_job now
  | Indeed => IndeedJobBoard.mock_job now
  | Glassdoor => GlassdoorJobBoard.mock_job now
  end.

Definition job_details_of (c : board_class) (job_id : string)
    (now : datetime) : JobPosting :=
  match c with
  | LinkedIn => LinkedInJobBoard.job_details job_id now
  | Indeed => IndeedJobBoard.job_details job_id now
  | Glassdoor => GlassdoorJobBoard.job_details job_id now
  end.

(** The fields of a posting other than [id], [url] and [date_posted]. *)
Definition fixed_fields (p : JobPosting) :=
  (title p, company p, location p, description p, salary_info p,
   job_type p, requirements p, is_remote p, raw_data p).

(** ** [JobBoardFactory] *)

(** [str.lower] on ASCII text: the letters [A]..[Z] go to [a]..[z], every
    other character is kept. *)
Definition ascii_lower (c : ascii) : ascii :=
  let n := N_of_ascii c in
  if ((65 <=? n) && (n <=? 90))%N then ascii_of_N (n + 32) else c.

Fixpoint str_lower (s : string) : string :=
  match s with
  | EmptyString => EmptyString
  | String c s' => String (ascii_lower c) (str_lower s')
  end.

Module JobBoardFactory.
Section create.

(** The built-in [str.lower].  [create] is stated for any such function,
    so that nothing depends on the case mapping of characters outside
    ASCII; [str_lower] is its instance on ASCII text. *)
Variable lower : string -> string.

Definition create (board_name : string) (api_key : option string)
    : result JobBoard :=
  let board_name := lower board_name in
  if String.eqb board_name "linkedin" then
    Returned (LinkedInJobBoard.__init__ api_key)
  else if String.eqb board_name "indeed" then
    Returned (IndeedJobBoard.__init__ api_key)
  else if String.eqb board_name "glassdoor" then
    Returned (GlassdoorJobBoard.__init__ api_key)
  else
    Raised (mk_exn "ValueError" ("Unknown job board: " +:+ board_name)).

End create.
End JobBoardFactory.

(** [returns_instance r c]: the call returned an instance of class [c]. *)
Definition returns_instance (r : result JobBoard) (c : board_class) : Prop :=
  exists self : JobBoard, r = Returned self /\ cls self = c.

(** ** Postings as objects

    A [JobPosting] is an object: the program holds references to it.  The
    store maps each reference to the current value of its object; a
    constructor call allocates the next free reference.  The methods
    below are the ones above with the postings they build placed in the
    store and their references returned. *)

Module Store.

Abbreviation heap := (list JobPosting).
Abbreviation ref := nat.

Definition alloc (p : JobPosting) (h : heap) : ref * heap :=
  (length h, (h ++ [p])%list).

Definition search (self : JobBoard)
    (keywords : list string)
    (location : option string)
    (radius : option Z)
    (job_type : option (list string))
    (remote : bool)
    (experience_level : option (list string))
    (posted_within_days : option Z)
    (limit : Z)
    (now : datetime) (h : heap) : result (list ref) * JobBoard * heap :=
  let mock_results : list ref := [] in
  let '(mock_job, h) := alloc (mock_job_of (cls self) now) h in
  let mock_results := (mock_results ++ [mock_job])%list in
  (Returned (py_slice_to mock_results limit), self, h).

Definition get_job_details (self : JobBoard) (job_id : string)
    (now : datetime) (h : heap) : result ref * JobBoard * heap :=
  let '(r, h) := alloc (job_details_of (cls self) job_id now) h in
  (Returned r, self, h).

(** [posting.<field> = v] on the object behind [r].  A frozen dataclass
    raises [FrozenInstanceError]; otherwise the object is updated in
    place.  A reference always denotes an object: for an [r] outside the
    store nothing changes. *)
Definition setattr (r : ref) (fv : field_value) (h : heap) : result heap :=
  if JobPosting_frozen then
    Raised (mk_exn "FrozenInstanceError" "cannot assign to field")
  else
    match h !! r with
    | Some p => Returned (<[r := assign fv p]> h)
    | None => Returned h
    end.

(** The operations the module offers on job boards. *)
Inductive operation : Type :=
| Op_search (self : JobBoard) (keywords : list string)
    (location : option string) (radius : option Z)
    (job_type : option (list string)) (remote : bool)
    (experience_level : option (list string))
    (posted_within_days : option Z) (limit : Z)
| Op_get_job_details (self : JobBoard) (job_id : string)
| Op_is_rate_limited (self : JobBoard)
| Op_name (self : JobBoard)
| Op_create (board_name : string) (api_key : option string).

(** The store after an operation run at clock value [now].
    [is_rate_limited], [name] and [create] build no posting and receive
    none. *)
Definition run (op : operation) (now : datetime) (h : heap) : heap :=
  match op with
  | Op_search self keywords location radius job_type remote
      experience_level posted_within_days limit =>
      (search self keywords location radius job_type remote
         experience_level posted_within_days limit now h).2
  | Op_get_job_details self job_id => (get_job_details self job_id now h).2
  | Op_is_rate_limited _ => h
  | Op_name _ => h
  | Op_create _ _ => h
  end.

(** The store after a sequence of operations, each with the clock value
    it reads. *)
Fixpoint run_all (ops : list (operation * datetime)) (h : heap) : heap :=
  match ops with
  | [] => h
  | (op, now) :: ops => run_all ops (run op now h)
  end.

End Store.

(** ** Sequences of calls on one job board *)

(** A call of a method of [JobBoardInterface] on an instance. *)
Inductive method_call : Type :=
| Call_search (keywords : list string)
    (location : option string) (radius : option Z)
    (job_type : option (list string)) (remote : bool)
    (experience_level : option (list string))
    (posted_within_days : option Z) (limit : Z)
| Call_get_job_details (job_id : string)
| Call_is_rate_limited
| Call_name.

(** The instance after a call made at clock value [now]. *)
Definition invoke (c : method_call) (now : datetime) (self : JobBoard)
    : JobBoard :=
  match c with
  | Call_search keywords location radius job_type remote experience_level
      posted_within_days limit =>
      (search self keywords location radius job_type remote
         experience_level posted_within_days limit now).2
  | Call_get_job_details job_id => (get_job_details self job_id now).2
  | Call_is_rate_limited => (is_rate_limited self).2
  | Call_name => self
  end.

Fixpoint invoke_all (cs : list (method_call * datetime)) (self : JobBoard)
    : JobBoard :=
  match cs with
  | [] => self
  | (c, now) :: cs => invoke_all cs (invoke c now self)
  end.

(** * Configuration management

    A shallow embedding of [config/config_manager.py] and of [main] in
    [__main__.py].

    - A configuration is what [yaml.safe_load] returns: a [pyval].
      Mappings are [gmap]s with string keys, as the annotations
      [Dict[str, Any]] say.
    - The operating system and the YAML library are outside the program:
      the code is written against the interface [OS] of the calls it
      makes, over an abstract state [world] of the machine.
    - Methods run in the monad [M S] of a state [S] with exceptions. *)

(** ** Python values *)

#[warnings="-register-all"]
Inductive pyval : Type :=
| PNone
| PBool (b : bool)
| PInt (n : Z)
| PFloat (f : float)
| PStr (s : string)
| PList (l : list pyval)
| PDict (d : gmap string pyval).

(** [type(v).__name__] *)
Definition type_name (v : pyval) : string :=
  match v with
  | PNone => "NoneType"
  | PBool _ => "bool"
  | PInt _ => "int"
  | PFloat _ => "float"
  | PStr _ => "str"
  | PList _ => "list"
  | PDict _ => "dict"
  end.

Definition is_dict (v : pyval) : bool :=
  match v with
  | PDict _ => true
  | _ => false
  end.

(** The exception of an attribute lookup [v.attr] that fails. *)
Definition AttributeError (v : pyval) (attr : string) : exn :=
  mk_exn "AttributeError"
    ("'" +:+ type_name v +:+ "' object has no attribute '" +:+ attr +:+ "'").

(** The dict display [{k1: v1, ..., kn: vn}]: the items are inserted from
    left to right. *)
Definition py_dict (items : list (string * pyval)) : pyval :=
  PDict (foldl (fun d kv => <[kv.1 := kv.2]> d) ∅ items).

(** [v.get(key, dflt)]: only a dict has the method. *)
Definition py_get (v : pyval) (key : string) (dflt : pyval) : result pyval :=
  match v with
  | PDict d => Returned (default dflt (d !! key))
  | _ => Raised (AttributeError v "get")
  end.

(** [v.update(other)] for a dict [other]: the value of [v] afterwards.
    The items of [other] replace those of [v] with the same key. *)
Definition py_update (v : pyval) (other : gmap string pyval)
    : result pyval :=
  match v with
  | PDict d => Returned (PDict (other ∪ d))
  | _ => Raised (AttributeError v "update")
  end.

(** The truth value of an [Optional[str]]: [None] and the empty string
    are false. *)
Definition truthy (s : option string) : bool :=
  match s with
  | Some s => negb (String.eqb s "")
  | None => false
  end.

(** ** State and exceptions *)

Definition M (S A : Type) : Type := S -> result A * S.

Definition ret {S A} (a : A) : M S A := fun s => (Returned a, s).

Definition bind {S A B} (m : M S A) (k : A -> M S B) : M S B :=
  fun s =>
    match m s with
    | (Returned a, s') => k a s'
    | (Raised e, s') => (Raised e, s')
    end.

Definition raise {S A} (e : exn) : M S A := fun s => (Raised e, s).

(** The outcome of a pure computation that can raise. *)
Definition of_result {S A} (r : result A) : M S A := fun s => (r, s).

Definition get_state {S} : M S S := fun s => (Returned s, s).

Notation "'let*' x ':=' m 'in' k" := (bind m (fun x => k))
  (at level 10, x pattern, m at level 100, k at level 200).
Notation "m ';;' k" := (bind m (fun _ => k))
  (at level 100, k at level 200, right associativity).

(** ** The interface to the operating system and to YAML *)

Class OS (world : Type) : Type := {
  (** [os.path.expanduser(path)] *)
  expanduser : string -> world -> string;
  (** [os.path.join(part, ...)] *)
  path_join : list string -> string;
  (** [os.path.dirname(path)] *)
  dirname : string -> string;
  (** [os.path.exists(path)] *)
  path_exists : string -> world -> bool;
  (** [os.makedirs(path, exist_ok=True)] *)
  makedirs : string -> M world unit;
  (** [with open(path, "r") as f: yaml.safe_load(f)] *)
  yaml_load_file : string -> M world pyval;
  (** [with open(path, "w") as f:
        yaml.dump(data, f, default_flow_style=False)] *)
  yaml_dump_file : string -> pyval -> M world unit
}.

(** What writing a file means for later reads: after a dump that
    returned, the file exists and loading it gives the value dumped,
    leaving the machine as it is. *)
Class OSLaws (world : Type) `{OS world} : Prop := {
  dump_exists : forall path data w w',
    yaml_dump_file path data w = (Returned tt, w') ->
    path_exists path w' = true;
  dump_load : forall path data w w',
    yaml_dump_file path data w = (Returned tt, w') ->
    yaml_load_file path w' = (Returned data, w')
}.

(** ** [ConfigManager] *)

Module ConfigManager.

(** The attributes [__init__] sets on [self]. *)
Record instance := mk_instance {
  config_path : string;
  config : pyval
}.

(** The dict [_create_default_config] builds. *)
Definition default_config : pyval :=
  py_dict [
    ("user_profile", py_dict [
       ("name", PStr "Sam");
       ("email", PStr "samstar2809@gmail.com");
       ("phone", PStr "9715665066");
       ("location", PStr "Chennai, TamilNadu");
       ("education", PList [
          py_dict [
            ("degree", PStr "Bachelor's Degree");
            ("field", PStr "Computer Science");
            ("institution", PStr "SRM University");
            ("year", PInt 2020)
          ]
        ]);
       ("skills", PList [
          PStr "Python"; PStr "Data Analysis"; PStr "Machine Learning"
        ]);
       ("experience", PList [
          py_dict [
            ("title", PStr "Software Developer");
            ("company", PStr "Zoho");
            ("start_date", PStr "2020-01");
            ("end_date", PStr "2023-01");
            ("description", PStr "Developed and maintained applications...")
          ]
        ])
     ]);
    ("job_search", py_dict [
       ("keywords", PList [PStr "software developer"; PStr "python developer"]);
       ("locations", PList [PStr "Remote"; PStr "New York, NY"]);
       ("exclude_keywords", PList [PStr "senior"; PStr "lead"]);
       ("job_boards", PList [PStr "linkedin"; PStr "indeed"]);
       ("refresh_interval_hours", PInt 24)
     ]);
    ("credentials", py_dict [
       ("linkedin", py_dict [
          ("username", PStr "");
          ("password", PStr "")
        ]);
       ("indeed", py_dict [
          ("api_key", PStr "")
        ]);
       ("openai", py_dict [
          ("api_key", PStr "")
        ])
     ]);
    ("output", py_dict [
       ("resume_template", PStr "modern");
       ("cover_letter_template", PStr "professional");
       ("output_directory", PStr "~/Documents/JobApplications")
     ])
  ].

(** An object on which [__init__] has not run yet.  It has no attribute:
    the two values below are never read, [__init__] assigns
    [config_path] before it reads it and never reads [config]. *)
Definition blank : instance := mk_instance "" PNone.

Section methods.

Context {world : Type} `{OS world}.

(** A method runs on [self] and on the machine. *)
Abbreviation method := (M (instance * world)).

Definition self_ : method instance := fun s => (Returned s.1, s).

Definition set_config_path (path : string) : method unit :=
  fun s => (Returned tt, (mk_instance path (config s.1), s.2)).

Definition set_config (c : pyval) : method unit :=
  fun s => (Returned tt, (mk_instance (config_path s.1) c, s.2)).

(** A call into the operating system. *)
Definition os {A} (m : M world A) : method A :=
  fun s => let '(r, w) := m s.2 in (r, (s.1, w)).

(** A call that only looks at the machine. *)
Definition os_read {A} (f : world -> A) : method A :=
  fun s => (Returned (f s.2), s).

Definition _create_default_config : method pyval :=
  let* self := self_ in
  os (makedirs (dirname (config_path self))) ;;
  let default_config := default_config in
  os (yaml_dump_file (config_path self) default_config) ;;
  ret default_config.

Definition _load_config : method pyval :=
  let* self := self_ in
  let* found := os_read (path_exists (config_path self)) in
  if negb found then
    _create_default_config
  else
    os (yaml_load_file (config_path self)).

(** [os.path.join(os.path.expanduser("~"), ".research_prep_agent",
    "config.yaml")] *)
Definition default_config_path : method string :=
  let* home := os_read (expanduser "~") in
  ret (path_join [home; ".research_prep_agent"; "config.yaml"]).

Definition __init__ (config_path : option string) : method unit :=
  (let* path :=
     match config_path with
     | Some p => if truthy (Some p) then ret p else default_config_path
     | None => default_config_path
     end in
   set_config_path path) ;;
  let* c := _load_config in
  set_config c.

(** The call [ConfigManager(config_path)]: a new object, initialised. *)
Definition new (config_path : option string) : M world instance :=
  fun w =>
    match __init__ config_path (blank, w) with
    | (Returned _, (self, w)) => (Returned self, w)
    | (Raised e, (_, w)) => (Raised e, w)
    end.

Definition get_config : method pyval :=
  let* self := self_ in
  ret (config self).

Definition get_user_profile : method pyval :=
  let* self := self_ in
  of_result (py_get (config self) "user_profile" (py_dict [])).

Definition get_job_search_config : method pyval :=
  let* self := self_ in
  of_result (py_get (config self) "job_search" (py_dict [])).

Definition get_credentials (service : string) : method pyval :=
  let* self := self_ in
  let* credentials :=
    of_result (py_get (config self) "credentials" (py_dict [])) in
  of_result (py_get credentials service (py_dict [])).

Definition _save_config : method unit :=
  let* self := self_ in
  os (yaml_dump_file (config_path self) (config self)).

Definition update_config (config' : gmap string pyval) : method unit :=
  let* self := self_ in
  let* updated := of_result (py_update (config self) config') in
  set_config updated ;;
  _save_config.

End methods.
End ConfigManager.

(** ** [main] *)

Module Main.

(** The namespace [parser.parse_args()] returns. *)
Record Namespace := mk_Namespace {
  config : option string;
  search : bool;
  analyze : bool;
  prepare : bool
}.

Section main.

Context {world : Type} `{OS world}.

(** The running program: the singleton [config_manager], the machine and
    the lines printed so far. *)
Record process := mk_process {
  config_manager : ConfigManager.instance;
  machine : world;
  stdout : list string
}.

Definition print (line : string) : M process unit :=
  fun p =>
    (Returned tt,
     mk_process (config_manager p) (machine p) (stdout p ++ [line])%list).

(** A method call on the singleton. *)
Definition on_config_manager {A}
    (m : M (ConfigManager.instance * world) A) : M process A :=
  fun p =>
    let '(r, (self, w)) := m (config_manager p, machine p) in
    (r, mk_process self w (stdout p)).

Definition main (args : Namespace) : M process unit :=
  (if truthy (config args) then
     on_config_manager (ConfigManager.__init__ (config args))
   else ret tt) ;;
  print "Research and Preparation Agent" ;;
  print "-----------------------------" ;;
  if negb (search args || analyze args || prepare args) then
    print "No action specified. Use --search, --analyze, or --prepare."
  else
    (if search args then
       print "Job search functionality not yet implemented."
     else ret tt) ;;
    (if analyze args then
       print "Job analysis functionality not yet implemented."
     else ret tt) ;;
    (if prepare args then
       print "Materials preparation functionality not yet implemented."
     else ret tt).

(** Running the module: the import of [config_manager] creates the
    singleton, then [main] runs. *)
Definition run (args : Namespace) : M world (list string) :=
  fun w =>
    match ConfigManager.new None w with
    | (Returned cm, w) =>
        let '(r, p) := main args (mk_process cm w []) in
        (match r with
         | Returned _ => Returned (stdout p)
         | Raised e => Raised e
         end, machine p)
    | (Raised e, w) => (Raised e, w)
    end.

End main.
End Main.

(** ** A machine in memory

    An instance of [OS] for running the code: the machine is the map from
    the paths of its YAML files to their contents, every directory can be
    made, and the home directory is [/home/user]. *)

Module MemOS.

Abbreviation world := (gmap string pyval).

Definition expanduser (path : string) (w : world) : string :=
  if String.eqb path "~" then "/home/user" else path.

Definition path_join (parts : list string) : string :=
  match parts with
  | [] => ""
  | p :: parts => foldl (fun a b => a +:+ "/" +:+ b) p parts
  end.

(** The path up to its last slash. *)
Fixpoint dirname (path : string) : string :=
  match path with
  | EmptyString => ""
  | String c rest =>
      match index 0 "/" rest with
      | Some _ => String c (dirname rest)
      | None => ""
      end
  end.

Definition path_exists (path : string) (w : world) : bool :=
  bool_decide (is_Some (w !! path)).

Definition makedirs (path : string) : M world unit := ret tt.

Definition yaml_load_file (path : string) : M world pyval :=
  fun w =>
    match w !! path with
    | Some data => (Returned data, w)
    | None =>
        (Raised (mk_exn "FileNotFoundError"
                   ("[Errno 2] No such file or directory: '" +:+ path
                    +:+ "'")), w)
    end.

Definition yaml_dump_file (path : string) (data : pyval) : M world unit :=
  fun w => (Returned tt, <[path := data]> w).

#[global] Instance mem_os : OS world :=
  Build_OS world expanduser path_join dirname path_exists makedirs
    yaml_load_file yaml_dump_file.

End MemOS.

(** * Properties *)

(** Closes an equivalence between "[create] returned an instance of
    class [c]" (or "raised [ValueError]") and a condition on the
    lowercased name, once the way [create] ended is known: an instance
    of another class, or an exception, is told apart from the instance
    asked about. *)
Ltac create_case :=
  split;
  [ first
      [ intros (self & [= <-] & Hcls); cbn in Hcls;
        first [done | discriminate Hcls]
      | intros (self & Heq & _); discriminate Heq
      | intros Heq; first [discriminate Heq | by repeat split] ]
  | first
      [ intros _; eexists; split; reflexivity
      | intros Heq; discriminate Heq
      | intros (? & ? & ?); done
      | done ] ].

(** ** Slicing *)

Lemma py_slice_to_length {A} (l : list A) (stop : Z) :
  0 <= stop -> Z.of_nat (length (py_slice_to l stop)) <= stop.
Proof.
  intros Hstop. unfold py_slice_to.
  destruct (Z.ltb_spec stop 0) as [Hneg|_]; [lia|].
  rewrite length_take. lia.
Qed.

Lemma py_slice_to_prefix {A} (l : list A) (stop : Z) :
  py_slice_to l stop `prefix_of` l.
Proof. unfold py_slice_to. apply prefix_take. Qed.

Example py_slice_to_examples :
  py_slice_to [1; 2; 3] 2 = [1; 2]
  /\ py_slice_to [1; 2; 3] 5 = [1; 2; 3]
  /\ py_slice_to [1; 2; 3] 0 = []
  /\ py_slice_to [1; 2; 3] (-1) = [1; 2]
  /\ py_slice_to [1; 2; 3] (-7) = [].
Proof. repeat split; reflexivity. Qed.

(** A one-element list is kept by a positive bound and emptied by any
    other. *)
Lemma py_slice_to_singleton {A} (x : A) (stop : Z) :
  py_slice_to [x] stop = if stop <=? 0 then [] else [x].
Proof.
  unfold py_slice_to. change (Z.of_nat (length [x])) with 1.
  destruct (Z.ltb_spec stop 0) as [Hneg|Hpos];
    destruct (Z.leb_spec stop 0) as [Hle|Hgt]; try lia.
  - replace (Z.max 0 (stop + 1)) with 0 by lia. reflexivity.
  - replace (Z.min stop 1) with 0 by lia. reflexivity.
  - replace (Z.min stop 1) with 1 by lia. reflexivity.
Qed.

(** ** Strings *)

Lemma append_empty_r (s : string) : s +:+ "" = s.
Proof.
  induction s as [|a s IH]; [reflexivity|].
  change (String a (s +:+ "") = String a s). by rewrite IH.
Qed.

Lemma contains_suffix (pre s : string) : contains (pre +:+ s) s.
Proof. exists pre, "". by rewrite append_empty_r. Qed.

(** ** What the methods compute *)

Lemma search_eq self keywords location radius job_type remote
    experience_level posted_within_days limit now :
  search self keywords location radius job_type remote experience_level
    posted_within_days limit now
  = (Returned (py_slice_to [mock_job_of (cls self) now] limit), self).
Proof. unfold search, mock_job_of. destruct (cls self); reflexivity. Qed.

Lemma get_job_details_eq self job_id now :
  get_job_details self job_id now
  = (Returned (job_details_of (cls self) job_id now), self).
Proof.
  unfold get_job_details, job_details_of. destruct (cls self); reflexivity.
Qed.

Lemma is_rate_limited_eq self :
  is_rate_limited self = (Returned (_rate_limited self), self).
Proof. unfold is_rate_limited. destruct (cls self); reflexivity. Qed.

Lemma erase_date_mock_job c now now' :
  erase_date (mock_job_of c now) = erase_date (mock_job_of c now').
Proof. destruct c; reflexivity. Qed.

Lemma job_details_of_id c job_id now :
  id (job_details_of c job_id now) = job_id.
Proof. destruct c; reflexivity. Qed.

Lemma job_details_of_url c job_id now :
  contains (url (job_details_of c job_id now)) job_id.
Proof.
  destruct c; apply contains_suffix.
Qed.

Lemma job_details_of_fixed c job_id job_id' now now' :
  fixed_fields (job_details_of c job_id now)
  = fixed_fields (job_details_of c job_id' now').
Proof. destruct c; reflexivity. Qed.

(** ** The length of a search result *)

(** C1, counterexample: a search with [limit = -1] returns the empty
    sequence, and its length [0] is not [<= -1]. *)
Lemma search_negative_limit_length :
  exists ps : list JobPosting,
    search (LinkedInJobBoard.__init__ None) ["python"] None None None false
      None None (-1) 0
    = (Returned ps, LinkedInJobBoard.__init__ None)
    /\ ~ (Z.of_nat (length ps) <= -1).
Proof. exists []. split; [reflexivity|]. cbn. lia. Qed.

(** C1, amended: for every search call on any job board with
    [limit = N], the call returns a sequence of postings of length
    [<= max(N, 0)]: at most [N] when [N >= 0], and empty when [N < 0]. *)
Theorem search_length_le_limit self keywords location radius job_type
    remote experience_level posted_within_days limit now :
  exists ps : list JobPosting,
    search self keywords location radius job_type remote experience_level
      posted_within_days limit now = (Returned ps, self)
    /\ Z.of_nat (length ps) <= Z.max 0 limit.
Proof.
  rewrite search_eq. eexists; split; [reflexivity|].
  rewrite py_slice_to_singleton.
  destruct (Z.leb_spec limit 0); cbn [length Z.of_nat Pos.of_succ_nat]; lia.
Qed.

(** ** Query validation *)

(** C2, counterexample: a search with an empty keyword list returns the
    mock posting, and a search with [limit = 0] returns the empty list;
    neither raises [InvalidQueryError]. *)
Lemma search_invalid_query_returns :
  (search (LinkedInJobBoard.__init__ None) [] None None None false None None
     50 0).1
  = Returned [LinkedInJobBoard.mock_job 0]
  /\ (search (IndeedJobBoard.__init__ None) ["python"] None None None false
        None None 0 0).1
     = Returned []
  /\ raises "InvalidQueryError"
       (search (LinkedInJobBoard.__init__ None) [] None None None false None
          None 50 0).1 = false
  /\ raises "InvalidQueryError"
       (search (IndeedJobBoard.__init__ None) ["python"] None None None false
          None None 0 0).1 = false.
Proof. repeat split; reflexivity. Qed.

(** C2, amended: search validates nothing.  For every search invocation,
    with an empty keyword list or [limit <= 0] included, the call returns
    and no [InvalidQueryError] is raised: the result is the empty list
    when [limit <= 0] and the one mock posting of the board otherwise,
    whatever the keywords. *)
Theorem search_never_raises_invalid_query self keywords location radius
    job_type remote experience_level posted_within_days limit now :
  (search self keywords location radius job_type remote experience_level
     posted_within_days limit now).1
  = Returned (if limit <=? 0 then [] else [mock_job_of (cls self) now])
  /\ raises "InvalidQueryError"
       (search self keywords location radius job_type remote
          experience_level posted_within_days limit now).1 = false.
Proof.
  rewrite search_eq, py_slice_to_singleton. split; reflexivity.
Qed.

(** ** The rate-limited state *)

(** C3, counterexample: a LinkedIn client whose [_rate_limited] flag is
    set reports that it is rate limited, and its search returns the mock
    posting instead of raising [RateLimitedError]. *)
Lemma search_rate_limited_returns :
  let self := with_rate_fields (LinkedInJobBoard.__init__ None) true None
                1.0%float in
  (is_rate_limited self).1 = Returned true
  /\ (search self ["python"] None None None false None None 50 0).1
     = Returned [LinkedInJobBoard.mock_job 0]
  /\ raises "RateLimitedError"
       (search self ["python"] None None None false None None 50 0).1
     = false.
Proof. repeat split; reflexivity. Qed.

(** C3, amended: for every job board client in the rate-limited state,
    search does not fail with [RateLimitedError]: it returns the postings
    it returns in any other state, and leaves the client as it was. *)
Theorem search_when_rate_limited self keywords location radius job_type
    remote experience_level posted_within_days limit now :
  (is_rate_limited self).1 = Returned true ->
  exists ps : list JobPosting,
    search self keywords location radius job_type remote experience_level
      posted_within_days limit now = (Returned ps, self)
    /\ ps = py_slice_to [mock_job_of (cls self) now] limit
    /\ raises "RateLimitedError"
         (search self keywords location radius job_type remote
            experience_level posted_within_days limit now).1 = false.
Proof.
  intros _. rewrite search_eq. eexists. repeat split; reflexivity.
Qed.

Lemma search_when_rate_limited_witness :
  let self := with_rate_fields (GlassdoorJobBoard.__init__ None) true None
                2.0%float in
  (is_rate_limited self).1 = Returned true
  /\ exists ps : list JobPosting,
       search self ["react"] (Some "Austin, TX") None None true None None 50 7
       = (Returned ps, self)
       /\ ps = py_slice_to [mock_job_of (cls self) 7] 50
       /\ raises "RateLimitedError"
            (search self ["react"] (Some "Austin, TX") None None true None
               None 50 7).1 = false.
Proof.
  split; [reflexivity|].
  apply (search_when_rate_limited
           (with_rate_fields (GlassdoorJobBoard.__init__ None) true None
              2.0%float)).
  reflexivity.
Defined.

(** ** Job details *)

(** C4, counterexample: the id ["no-such-job"] is none of the ids the
    LinkedIn search returns, and [get_job_details] returns a posting for
    it instead of raising [NotFoundError]. *)
Lemma get_job_details_unknown_id_returns :
  let self := LinkedInJobBoard.__init__ None in
  (exists ps : list JobPosting,
     (search self ["python"] None None None false None None 50 0).1
     = Returned ps /\ "no-such-job" ∉ id <$> ps)
  /\ (get_job_details self "no-such-job" 0).1
     = Returned (LinkedInJobBoard.job_details "no-such-job" 0)
  /\ raises "NotFoundError" (get_job_details self "no-such-job" 0).1 = false.
Proof.
  split; [|split; reflexivity].
  exists [LinkedInJobBoard.mock_job 0]. split; [reflexivity|].
  intros Hin. apply list_elem_of_In in Hin. cbn in Hin.
  destruct Hin as [Heq|[]]. discriminate Heq.
Qed.

(** C4, amended: no job board client has a notion of known ids.  For
    every client and every [job_id] string, [get_job_details] returns a
    posting whose [id] is [job_id]; it never raises [NotFoundError]. *)
Theorem get_job_details_never_not_found self job_id now :
  exists p : JobPosting,
    get_job_details self job_id now = (Returned p, self)
    /\ id p = job_id
    /\ raises "NotFoundError" (get_job_details self job_id now).1 = false.
Proof.
  rewrite get_job_details_eq. eexists. split; [reflexivity|].
  split; [apply job_details_of_id | reflexivity].
Qed.

(** C10: for every job board client and every [job_id] string,
    [get_job_details] returns a posting whose [id] is [job_id] and whose
    [url] contains [job_id]; its other fields, [date_posted] apart, are
    constants of the board: two clients of the same class return them
    equal for any two ids and clock values. *)
Theorem get_job_details_posting self self' job_id job_id' now now' :
  cls self = cls self' ->
  exists p p' : JobPosting,
    get_job_details self job_id now = (Returned p, self)
    /\ get_job_details self' job_id' now' = (Returned p', self')
    /\ id p = job_id
    /\ contains (url p) job_id
    /\ date_posted p = now
    /\ fixed_fields p = fixed_fields p'.
Proof.
  intros Hcls. rewrite !get_job_details_eq, <- Hcls.
  eexists _, _. split; [reflexivity|]. split; [reflexivity|].
  split; [apply job_details_of_id|].
  split; [apply job_details_of_url|].
  split; [by destruct (cls self) | apply job_details_of_fixed].
Qed.

Lemma get_job_details_posting_witness :
  cls (IndeedJobBoard.__init__ None)
  = cls (IndeedJobBoard.__init__ (Some "key"))
  /\ exists p p' : JobPosting,
       get_job_details (IndeedJobBoard.__init__ None) "456" 10
       = (Returned p, IndeedJobBoard.__init__ None)
       /\ get_job_details (IndeedJobBoard.__init__ (Some "key")) "job-9" 20
          = (Returned p', IndeedJobBoard.__init__ (Some "key"))
       /\ id p = "456"
       /\ contains (url p) "456"
       /\ date_posted p = 10
       /\ fixed_fields p = fixed_fields p'.
Proof.
  split; [reflexivity|].
  apply (get_job_details_posting (IndeedJobBoard.__init__ None)
           (IndeedJobBoard.__init__ (Some "key")) "456" "job-9" 10 20).
  reflexivity.
Defined.

(** ** Mock data *)

(** C5: the search result is hardcoded mock data.  Two search calls on
    boards of the same class with the same limit return the same
    postings, the [date_posted] timestamps apart, whatever the keywords,
    location, radius, job types, remote flag, experience levels and
    posting age asked for. *)
Theorem search_result_is_mock_data self self'
    keywords location radius job_type remote experience_level
    posted_within_days now
    keywords' location' radius' job_type' remote' experience_level'
    posted_within_days' now' limit :
  cls self = cls self' ->
  exists ps ps' : list JobPosting,
    search self keywords location radius job_type remote experience_level
      posted_within_days limit now = (Returned ps, self)
    /\ search self' keywords' location' radius' job_type' remote'
         experience_level' posted_within_days' limit now'
       = (Returned ps', self')
    /\ erase_date <$> ps = erase_date <$> ps'.
Proof.
  intros Hcls. rewrite !search_eq, <- Hcls.
  eexists _, _. split; [reflexivity|]. split; [reflexivity|].
  rewrite !py_slice_to_singleton. destruct (limit <=? 0); [reflexivity|].
  cbn [fmap list_fmap]. by rewrite (erase_date_mock_job _ now now').
Qed.

Lemma search_result_is_mock_data_witness :
  let self := GlassdoorJobBoard.__init__ None in
  cls self = cls self
  /\ exists ps ps' : list JobPosting,
       search self ["react"] (Some "Austin, TX") (Some 25)
         (Some ["full-time"]) true (Some ["mid"]) (Some 7) 50 1000
       = (Returned ps, self)
       /\ search self ["cobol"; "fortran"] None None None false None None 50
            2000
          = (Returned ps', self)
       /\ erase_date <$> ps = erase_date <$> ps'.
Proof.
  split; [reflexivity|].
  apply (search_result_is_mock_data (GlassdoorJobBoard.__init__ None)
           (GlassdoorJobBoard.__init__ None)).
  reflexivity.
Defined.

(** ** The rate-limit fields *)

(** C6: the attributes [_min_request_interval], [_last_request_time] and
    [_rate_limited] are not wired to throttling.  Whatever values they
    hold, [search] and [get_job_details] return the result they return
    for any other values, and the instance after the call holds the
    values it held before. *)
Theorem rate_limit_fields_not_wired self rate_limited last_request_time
    min_request_interval keywords location radius job_type remote
    experience_level posted_within_days limit job_id now :
  let self' := with_rate_fields self rate_limited last_request_time
                 min_request_interval in
  search self' keywords location radius job_type remote experience_level
    posted_within_days limit now
  = ((search self keywords location radius job_type remote experience_level
        posted_within_days limit now).1, self')
  /\ get_job_details self' job_id now
     = ((get_job_details self job_id now).1, self').
Proof.
  intros self'. rewrite !search_eq, !get_job_details_eq. split; reflexivity.
Qed.

(** C7: for every job board client, [is_rate_limited] is a pure read: it
    returns the value of the [_rate_limited] flag of the client, and the
    client after the call is the client before it, field for field. *)
Theorem is_rate_limited_pure_read self :
  is_rate_limited self = (Returned (_rate_limited self), self)
  /\ LinkedInJobBoard.is_rate_limited self
     = (Returned (_rate_limited self), self)
  /\ IndeedJobBoard.is_rate_limited self
     = (Returned (_rate_limited self), self)
  /\ GlassdoorJobBoard.is_rate_limited self
     = (Returned (_rate_limited self), self).
Proof. split; [apply is_rate_limited_eq | repeat split]. Qed.

(** ** The factory *)

Lemma create_linkedin lower board_name api_key :
  lower board_name = "linkedin" ->
  JobBoardFactory.create lower board_name api_key
  = Returned (LinkedInJobBoard.__init__ api_key).
Proof. intros H. unfold JobBoardFactory.create. by rewrite H. Qed.

Lemma create_indeed lower board_name api_key :
  lower board_name = "indeed" ->
  JobBoardFactory.create lower board_name api_key
  = Returned (IndeedJobBoard.__init__ api_key).
Proof. intros H. unfold JobBoardFactory.create. by rewrite H. Qed.

Lemma create_glassdoor lower board_name api_key :
  lower board_name = "glassdoor" ->
  JobBoardFactory.create lower board_name api_key
  = Returned (GlassdoorJobBoard.__init__ api_key).
Proof. intros H. unfold JobBoardFactory.create. by rewrite H. Qed.

Lemma create_unknown lower board_name api_key :
  lower board_name ≠ "linkedin" ->
  lower board_name ≠ "indeed" ->
  lower board_name ≠ "glassdoor" ->
  JobBoardFactory.create lower board_name api_key
  = Raised (mk_exn "ValueError"
              ("Unknown job board: " +:+ lower board_name)).
Proof.
  intros H1 H2 H3. unfold JobBoardFactory.create.
  apply String.eqb_neq in H1, H2, H3. by rewrite H1, H2, H3.
Qed.

(** The four ways [create] can end. *)
Lemma create_cases lower board_name api_key :
  let r := JobBoardFactory.create lower board_name api_key in
  (lower board_name = "linkedin"
   /\ r = Returned (LinkedInJobBoard.__init__ api_key))
  \/ (lower board_name = "indeed"
      /\ r = Returned (IndeedJobBoard.__init__ api_key))
  \/ (lower board_name = "glassdoor"
      /\ r = Returned (GlassdoorJobBoard.__init__ api_key))
  \/ (lower board_name ≠ "linkedin" /\ lower board_name ≠ "indeed"
      /\ lower board_name ≠ "glassdoor"
      /\ r = Raised (mk_exn "ValueError"
                       ("Unknown job board: " +:+ lower board_name))).
Proof.
  intros r. subst r.
  destruct (String.eqb_spec (lower board_name) "linkedin") as [H1|H1];
    [left; split; [done | by apply create_linkedin]|].
  destruct (String.eqb_spec (lower board_name) "indeed") as [H2|H2];
    [right; left; split; [done | by apply create_indeed]|].
  destruct (String.eqb_spec (lower board_name) "glassdoor") as [H3|H3];
    [right; right; left; split; [done | by apply create_glassdoor]|].
  right; right; right. repeat split; try done. by apply create_unknown.
Qed.

(** The factory looks at the lowercased name only. *)
Lemma create_same_lowercase lower board_name board_name' api_key :
  lower board_name = lower board_name' ->
  JobBoardFactory.create lower board_name api_key
  = JobBoardFactory.create lower board_name' api_key.
Proof. intros H. unfold JobBoardFactory.create. by rewrite H. Qed.

Example create_mixed_case :
  JobBoardFactory.create str_lower "LinkedIn" (Some "k")
  = Returned (LinkedInJobBoard.__init__ (Some "k"))
  /\ JobBoardFactory.create str_lower "INDEED" None
     = Returned (IndeedJobBoard.__init__ None)
  /\ JobBoardFactory.create str_lower "glassDoor" None
     = Returned (GlassdoorJobBoard.__init__ None)
  /\ JobBoardFactory.create str_lower "Monster" None
     = Raised (mk_exn "ValueError" "Unknown job board: monster").
Proof. repeat split; reflexivity. Qed.

(** C9: for every [board_name] string, [JobBoardFactory.create] returns a
    [LinkedInJobBoard], an [IndeedJobBoard] or a [GlassdoorJobBoard]
    instance exactly when the lowercased [board_name] is ["linkedin"],
    ["indeed"] or ["glassdoor"] respectively, and raises [ValueError] for
    every other name.  The name is compared after lowercasing only, so
    two names with the same lowercase form are treated alike. *)
Theorem create_by_lowercased_name lower board_name api_key :
  let r := JobBoardFactory.create lower board_name api_key in
  (returns_instance r LinkedIn <-> lower board_name = "linkedin")
  /\ (returns_instance r Indeed <-> lower board_name = "indeed")
  /\ (returns_instance r Glassdoor <-> lower board_name = "glassdoor")
  /\ (raises "ValueError" r = true <->
      lower board_name ≠ "linkedin" /\ lower board_name ≠ "indeed"
      /\ lower board_name ≠ "glassdoor")
  /\ (forall board_name' : string,
        lower board_name' = lower board_name ->
        JobBoardFactory.create lower board_name' api_key = r).
Proof.
  intros r. split_and!.
  5: { intros board_name' H. by apply create_same_lowercase. }
  all: subst r; unfold returns_instance;
    destruct (create_cases lower board_name api_key)
      as [[Hn ->]|[[Hn ->]|[[Hn ->]|(Hn1 & Hn2 & Hn3 & ->)]]];
    rewrite ?Hn; cbn [raises exn_class]; create_case.
Qed.

(** ** Postings in the store *)

Lemma alloc_lookup_old (p q : JobPosting) (h : list JobPosting) (r : nat) :
  h !! r = Some q -> (Store.alloc p h).2 !! r = Some q.
Proof. intros Hr. unfold Store.alloc. cbn. by apply lookup_app_l_Some. Qed.

Lemma alloc_lookup_new (p : JobPosting) (h : list JobPosting) :
  (Store.alloc p h).2 !! (Store.alloc p h).1 = Some p.
Proof.
  unfold Store.alloc. cbn. rewrite lookup_app_r by lia.
  by rewrite Nat.sub_diag.
Qed.

(** The store-level methods return references to the postings the
    value-level methods return. *)
Lemma store_search_refines self keywords location radius job_type remote
    experience_level posted_within_days limit now (h : list JobPosting) :
  exists (rs : list nat) (h' : list JobPosting) (ps : list JobPosting),
    Store.search self keywords location radius job_type remote
      experience_level posted_within_days limit now h
    = (Returned rs, self, h')
    /\ search self keywords location radius job_type remote experience_level
         posted_within_days limit now = (Returned ps, self)
    /\ Forall2 (fun r p => h' !! r = Some p) rs ps.
Proof.
  rewrite search_eq. unfold Store.search.
  destruct (Store.alloc (mock_job_of (cls self) now) h) as [r h'] eqn:Ha.
  eexists _, _, _. split; [reflexivity|]. split; [reflexivity|].
  cbn [app]. rewrite !py_slice_to_singleton.
  destruct (limit <=? 0); constructor; [|constructor].
  pose proof (alloc_lookup_new (mock_job_of (cls self) now) h) as Hnew.
  by rewrite Ha in Hnew.
Qed.

Lemma store_get_job_details_refines self job_id now (h : list JobPosting) :
  exists (r : nat) (h' : list JobPosting) (p : JobPosting),
    Store.get_job_details self job_id now h = (Returned r, self, h')
    /\ get_job_details self job_id now = (Returned p, self)
    /\ h' !! r = Some p.
Proof.
  rewrite get_job_details_eq. unfold Store.get_job_details.
  destruct (Store.alloc (job_details_of (cls self) job_id now) h)
    as [r h'] eqn:Ha.
  eexists _, _, _. split; [reflexivity|]. split; [reflexivity|].
  pose proof (alloc_lookup_new (job_details_of (cls self) job_id now) h)
    as Hnew.
  by rewrite Ha in Hnew.
Qed.

Lemma run_lookup_old op now (h : list JobPosting) (r : nat) (p : JobPosting) :
  h !! r = Some p -> Store.run op now h !! r = Some p.
Proof.
  intros Hr. destruct op; cbn [Store.run]; try done.
  - unfold Store.search.
    destruct (Store.alloc (mock_job_of (cls self) now) h) as [r' h'] eqn:Ha.
    cbn. apply (alloc_lookup_old (mock_job_of (cls self) now)) in Hr.
    by rewrite Ha in Hr.
  - unfold Store.get_job_details.
    destruct (Store.alloc (job_details_of (cls self) job_id now) h)
      as [r' h'] eqn:Ha.
    cbn. apply (alloc_lookup_old (job_details_of (cls self) job_id now)) in Hr.
    by rewrite Ha in Hr.
Qed.

Lemma run_all_lookup_old ops (h : list JobPosting) (r : nat)
    (p : JobPosting) :
  h !! r = Some p -> Store.run_all ops h !! r = Some p.
Proof.
  revert h. induction ops as [|[op now] ops IH]; intros h Hr; [done|].
  cbn [Store.run_all]. apply IH. by apply run_lookup_old.
Qed.

Lemma setattr_assigns (h : list JobPosting) (r : nat) (p : JobPosting) fv :
  h !! r = Some p ->
  Store.setattr r fv h = Returned (<[r := assign fv p]> h).
Proof. intros Hr. unfold Store.setattr. cbn. by rewrite Hr. Qed.

(** C8, counterexample: the posting a LinkedIn search has constructed is
    stored at reference [0]; assigning to its [title] succeeds and
    changes the field. *)
Lemma JobPosting_field_assignment :
  let h := (Store.search (LinkedInJobBoard.__init__ None) ["python"] None
              None None false None None 50 0 []).2 in
  h !! 0%nat = Some (LinkedInJobBoard.mock_job 0)
  /\ exists h' : list JobPosting,
       Store.setattr 0 (Set_title "Janitor") h = Returned h'
       /\ title <$> h' !! 0%nat = Some "Janitor"
       /\ title <$> h !! 0%nat = Some "Senior Software Engineer".
Proof.
  cbv zeta. split; [reflexivity|].
  eexists. split; [reflexivity|]. split; reflexivity.
Qed.

(** C8, amended: [JobPosting] is a plain, not frozen, dataclass, so an
    assignment to a field of a constructed posting succeeds and updates
    it in place.  The operations of the job boards themselves ([search],
    [get_job_details], [is_rate_limited], [name] and
    [JobBoardFactory.create]) assign to none: after any sequence of them
    every posting constructed before holds the value it held. *)
Theorem postings_unchanged_by_operations (h : list JobPosting) (r : nat)
    (p : JobPosting) :
  h !! r = Some p ->
  (forall ops : list (Store.operation * datetime),
     Store.run_all ops h !! r = Some p)
  /\ (forall fv : field_value,
        Store.setattr r fv h = Returned (<[r := assign fv p]> h)).
Proof.
  intros Hr. split.
  - intros ops. by apply run_all_lookup_old.
  - intros fv. by apply setattr_assigns.
Qed.

Lemma postings_unchanged_by_operations_witness :
  let h := [IndeedJobBoard.mock_job 5] in
  h !! 0%nat = Some (IndeedJobBoard.mock_job 5)
  /\ (forall ops : list (Store.operation * datetime),
        Store.run_all ops h !! 0%nat = Some (IndeedJobBoard.mock_job 5))
  /\ (forall fv : field_value,
        Store.setattr 0 fv h
        = Returned (<[0%nat := assign fv (IndeedJobBoard.mock_job 5)]> h)).
Proof.
  split; [reflexivity|].
  apply (postings_unchanged_by_operations [IndeedJobBoard.mock_job 5] 0).
  reflexivity.
Defined.

(** * Further properties of the job boards *)

(** ** Calls never change a board *)

Lemma invoke_same c now self : invoke c now self = self.
Proof.
  destruct c; cbn [invoke];
    rewrite ?search_eq, ?get_job_details_eq, ?is_rate_limited_eq; reflexivity.
Qed.

Lemma invoke_all_same cs self : invoke_all cs self = self.
Proof.
  revert self. induction cs as [|[c now] cs IH]; intros self; [done|].
  cbn [invoke_all]. by rewrite invoke_same.
Qed.

Lemma create_returned_fresh lower board_name api_key b :
  JobBoardFactory.create lower board_name api_key = Returned b ->
  _api_key b = api_key /\ _rate_limited b = false
  /\ _last_request_time b = None.
Proof.
  intros Hb.
  destruct (create_cases lower board_name api_key)
    as [[_ Hr]|[[_ Hr]|[[_ Hr]|(_ & _ & _ & Hr)]]];
    cbv zeta in Hr; rewrite Hr in Hb; [| | |discriminate Hb];
    injection Hb as <-; done.
Qed.

(** X1: no method ever sets the rate-limit flag.  A board the factory
    has returned is the same instance after any sequence of [search],
    [get_job_details], [is_rate_limited] and [name] calls, so its
    [is_rate_limited] returns [False] for ever and it keeps the API key
    it was created with. *)
Theorem created_board_never_rate_limited lower board_name api_key b cs :
  JobBoardFactory.create lower board_name api_key = Returned b ->
  invoke_all cs b = b
  /\ is_rate_limited (invoke_all cs b) = (Returned false, b)
  /\ _api_key (invoke_all cs b) = api_key.
Proof.
  intros Hb. apply create_returned_fresh in Hb as (Hkey & Hrl & _).
  rewrite invoke_all_same, is_rate_limited_eq, Hrl. done.
Qed.

Lemma created_board_never_rate_limited_witness :
  let b := IndeedJobBoard.__init__ (Some "key") in
  let cs := [(Call_search ["python"] None None None false None None 50, 10);
             (Call_get_job_details "456", 20);
             (Call_is_rate_limited, 30);
             (Call_search [] None None None true None None (-3), 40)] in
  JobBoardFactory.create str_lower "Indeed" (Some "key") = Returned b
  /\ invoke_all cs b = b
  /\ is_rate_limited (invoke_all cs b) = (Returned false, b)
  /\ _api_key (invoke_all cs b) = Some "key".
Proof.
  split; [reflexivity|].
  apply (created_board_never_rate_limited str_lower "Indeed"). reflexivity.
Defined.

(** ** Names *)

(** X2: the name of a board identifies its class, and the factory
    accepts it: [create] called with the [name] of any board returns a
    board of the same class, with the same name. *)
Theorem create_from_name self self' api_key :
  (name self = name self' <-> cls self = cls self')
  /\ exists b : JobBoard,
       JobBoardFactory.create str_lower (name self) api_key = Returned b
       /\ cls b = cls self
       /\ name b = name self.
Proof.
  unfold name. split.
  - destruct (cls self), (cls self'); split; intros Heq;
      first [done | discriminate Heq].
  - destruct (cls self); eexists; (split; [reflexivity|done]).
Qed.

(** ** From a search result to its details *)

(** X3: looking up a posting a search has returned.  For every posting
    [p] in a search result, [get_job_details] on the same board with the
    id of [p] returns a posting with that id and the title, company,
    location, salary, job type, requirements, remote flag and raw data
    of [p]; its [url] and its [description] are not those of [p]. *)
Theorem search_then_get_job_details self keywords loc radius job_types
    remote experience_level posted_within_days limit now now' ps p :
  (search self keywords loc radius job_types remote experience_level
     posted_within_days limit now).1 = Returned ps ->
  p ∈ ps ->
  exists d : JobPosting,
    get_job_details self (id p) now' = (Returned d, self)
    /\ id d = id p
    /\ (title d, company d, location d, salary_info d,
        job_type d, requirements d, is_remote d, raw_data d)
       = (title p, company p, location p, salary_info p,
          job_type p, requirements p, is_remote p, raw_data p)
    /\ url d ≠ url p
    /\ description d ≠ description p.
Proof.
  rewrite search_eq, get_job_details_eq, py_slice_to_singleton.
  cbn [fst]. intros [= <-] Hp.
  destruct (limit <=? 0); [by apply elem_of_nil in Hp|].
  apply list_elem_of_singleton in Hp as ->.
  eexists. split; [reflexivity|].
  destruct (cls self); repeat split; discriminate.
Qed.

Lemma search_then_get_job_details_witness :
  let self := GlassdoorJobBoard.__init__ None in
  (search self ["react"] None None None false None None 10 100).1
  = Returned [GlassdoorJobBoard.mock_job 100]
  /\ GlassdoorJobBoard.mock_job 100 ∈ [GlassdoorJobBoard.mock_job 100]
  /\ exists d : JobPosting,
       get_job_details self "glassdoor-job-789" 200 = (Returned d, self)
       /\ id d = "glassdoor-job-789"
       /\ (title d, company d, location d, salary_info d,
           job_type d, requirements d, is_remote d, raw_data d)
          = (title (GlassdoorJobBoard.mock_job 100),
             company (GlassdoorJobBoard.mock_job 100),
             location (GlassdoorJobBoard.mock_job 100),
             salary_info (GlassdoorJobBoard.mock_job 100),
             job_type (GlassdoorJobBoard.mock_job 100),
             requirements (GlassdoorJobBoard.mock_job 100),
             is_remote (GlassdoorJobBoard.mock_job 100),
             raw_data (GlassdoorJobBoard.mock_job 100))
       /\ url d ≠ "https://glassdoor.com/jobs/view/789"
       /\ description d ≠ "Seeking a skilled frontend developer...".
Proof.
  split; [reflexivity|]. split; [apply list_elem_of_singleton; reflexivity|].
  apply (search_then_get_job_details (GlassdoorJobBoard.__init__ None)
           ["react"] None None None false None None 10 100 200
           [GlassdoorJobBoard.mock_job 100] (GlassdoorJobBoard.mock_job 100)).
  - reflexivity.
  - apply list_elem_of_singleton; reflexivity.
Defined.

(** X4: on one board, the details of two job ids have the same [url]
    exactly when the ids are equal: distinct ids never share a URL. *)
Theorem get_job_details_url_injective self job_id job_id' now now' :
  exists d d' : JobPosting,
    get_job_details self job_id now = (Returned d, self)
    /\ get_job_details self job_id' now' = (Returned d', self)
    /\ (url d = url d' <-> job_id = job_id').
Proof.
  rewrite !get_job_details_eq. eexists _, _.
  split; [reflexivity|]. split; [reflexivity|].
  destruct (cls self); cbn [job_details_of url LinkedInJobBoard.job_details
    IndeedJobBoard.job_details GlassdoorJobBoard.job_details];
    (split; [apply String.app_inj | by intros ->]).
Qed.

(** ** Search results are new objects *)

Lemma store_search_eq self keywords loc radius job_types remote
    experience_level posted_within_days limit now (h : list JobPosting) :
  Store.search self keywords loc radius job_types remote experience_level
    posted_within_days limit now h
  = (Returned (if limit <=? 0 then [] else [length h]), self,
     (h ++ [mock_job_of (cls self) now])%list).
Proof.
  unfold Store.search, Store.alloc. cbn [app].
  by rewrite py_slice_to_singleton.
Qed.

Lemma setattr_lookup_other (h : list JobPosting) (a b : nat) fv :
  a ≠ b ->
  exists h' : list JobPosting,
    Store.setattr a fv h = Returned h' /\ h' !! b = h !! b.
Proof.
  intros Hab. unfold Store.setattr. cbn.
  destruct (h !! a) as [p|]; eexists; (split; [reflexivity|]); [|done].
  by apply list_lookup_insert_ne.
Qed.

(** X5: every search builds its postings anew.  The references a search
    returns denote no posting that existed before the call, and none a
    later search returns: an assignment to a field of a posting from one
    search leaves the postings of the other search as they are. *)
Theorem search_results_are_fresh self keywords loc radius job_types remote
    experience_level posted_within_days limit now
    self' keywords' loc' radius' job_types' remote' experience_level'
    posted_within_days' limit' now'
    (h h1 h2 : list JobPosting) (rs rs' : list nat) (a b : nat) :
  Store.search self keywords loc radius job_types remote experience_level
    posted_within_days limit now h = (Returned rs, self, h1) ->
  Store.search self' keywords' loc' radius' job_types' remote'
    experience_level' posted_within_days' limit' now' h1
  = (Returned rs', self', h2) ->
  a ∈ rs -> b ∈ rs' ->
  h !! a = None
  /\ a ≠ b
  /\ forall fv : field_value,
       exists h3 : list JobPosting,
         Store.setattr a fv h2 = Returned h3 /\ h3 !! b = h2 !! b.
Proof.
  rewrite !store_search_eq. intros [= <- <-] [= <- <-] Ha Hb.
  destruct (limit <=? 0); [by apply elem_of_nil in Ha|].
  destruct (limit' <=? 0); [by apply elem_of_nil in Hb|].
  apply list_elem_of_singleton in Ha as ->.
  apply list_elem_of_singleton in Hb as ->.
  rewrite length_app. cbn [length].
  split; [by apply lookup_ge_None_2|].
  split; [lia|].
  intros fv. apply setattr_lookup_other. lia.
Qed.

Lemma search_results_are_fresh_witness :
  let li := LinkedInJobBoard.__init__ None in
  let h := [IndeedJobBoard.mock_job 1] in
  let h1 := [IndeedJobBoard.mock_job 1; LinkedInJobBoard.mock_job 2] in
  let h2 := [IndeedJobBoard.mock_job 1; LinkedInJobBoard.mock_job 2;
             LinkedInJobBoard.mock_job 3] in
  Store.search li ["python"] None None None false None None 50 2 h
  = (Returned [1%nat], li, h1)
  /\ Store.search li ["python"] None None None false None None 50 3 h1
     = (Returned [2%nat], li, h2)
  /\ h !! 1%nat = None
  /\ 1%nat ≠ 2%nat
  /\ forall fv : field_value,
       exists h3 : list JobPosting,
         Store.setattr 1 fv h2 = Returned h3 /\ h3 !! 2%nat = h2 !! 2%nat.
Proof.
  split; [reflexivity|]. split; [reflexivity|].
  apply (search_results_are_fresh (LinkedInJobBoard.__init__ None)
           ["python"] None None None false None None 50 2
           (LinkedInJobBoard.__init__ None)
           ["python"] None None None false None None 50 3
           [IndeedJobBoard.mock_job 1]
           [IndeedJobBoard.mock_job 1; LinkedInJobBoard.mock_job 2]
           [IndeedJobBoard.mock_job 1; LinkedInJobBoard.mock_job 2;
            LinkedInJobBoard.mock_job 3]
           [1%nat] [2%nat] 1%nat 2%nat).
  - reflexivity.
  - reflexivity.
  - apply list_elem_of_singleton; reflexivity.
  - apply list_elem_of_singleton; reflexivity.
Defined.

(** * Properties of the configuration manager *)

Section config_manager.

Context {world : Type} `{OS world}.

Implicit Types (self : ConfigManager.instance) (w : world).

(** ** What the methods compute *)

Lemma py_dict_nil : py_dict [] = PDict ∅.
Proof. reflexivity. Qed.

Lemma py_get_dict (d : gmap string pyval) key dflt :
  py_get (PDict d) key dflt = Returned (default dflt (d !! key)).
Proof. reflexivity. Qed.

Lemma py_get_non_dict v key dflt :
  is_dict v = false -> py_get v key dflt = Raised (AttributeError v "get").
Proof. by destruct v. Qed.

Lemma py_update_non_dict v other :
  is_dict v = false ->
  py_update v other = Raised (AttributeError v "update").
Proof. by destruct v. Qed.

Lemma get_credentials_eq self w service :
  ConfigManager.get_credentials service (self, w)
  = (match py_get (ConfigManager.config self) "credentials" (PDict ∅) with
     | Returned credentials => py_get credentials service (PDict ∅)
     | Raised e => Raised e
     end, (self, w)).
Proof.
  unfold ConfigManager.get_credentials, ConfigManager.self_, bind, of_result.
  cbn. rewrite py_dict_nil.
  by destruct (py_get (ConfigManager.config self) "credentials" (PDict ∅)).
Qed.

Lemma get_credentials_cases self w service :
  ConfigManager.get_credentials service (self, w)
  = (match ConfigManager.config self with
     | PDict d =>
         match d !! "credentials" with
         | None => Returned (PDict ∅)
         | Some (PDict creds) =>
             Returned (default (PDict ∅) (creds !! service))
         | Some v => Raised (AttributeError v "get")
         end
     | v => Raised (AttributeError v "get")
     end, (self, w)).
Proof.
  rewrite get_credentials_eq. f_equal.
  destruct (ConfigManager.config self) as [| | | | | |d]; try reflexivity.
  cbn. destruct (d !! "credentials") as [[| | | | | |creds]|];
    reflexivity.
Qed.

Lemma update_config_dict self w (c d : gmap string pyval) :
  ConfigManager.config self = PDict d ->
  ConfigManager.update_config c (self, w)
  = let self' := ConfigManager.mk_instance (ConfigManager.config_path self)
                   (PDict (c ∪ d)) in
    let '(r, w') := yaml_dump_file (ConfigManager.config_path self)
                      (PDict (c ∪ d)) w in
    (r, (self', w')).
Proof.
  intros Hd.
  unfold ConfigManager.update_config, ConfigManager._save_config,
    ConfigManager.self_, ConfigManager.set_config, ConfigManager.os, bind,
    of_result.
  cbn. rewrite Hd. cbn.
  by destruct (yaml_dump_file _ _ w) as [[[]|e] w'].
Qed.

Lemma update_config_non_dict self w (c : gmap string pyval) :
  is_dict (ConfigManager.config self) = false ->
  ConfigManager.update_config c (self, w)
  = (Raised (AttributeError (ConfigManager.config self) "update"),
     (self, w)).
Proof.
  intros Hnd.
  unfold ConfigManager.update_config, ConfigManager.self_, bind, of_result.
  cbn [fst snd]. by rewrite (py_update_non_dict _ _ Hnd).
Qed.

Lemma init_eq config_path self w :
  ConfigManager.__init__ config_path (self, w)
  = let path :=
      if truthy config_path then default "" config_path
      else path_join [expanduser "~" w; ".research_prep_agent";
                      "config.yaml"] in
    let '(r, w') :=
      if path_exists path w then yaml_load_file path w
      else
        match makedirs (dirname path) w with
        | (Returned _, w1) =>
            match yaml_dump_file path ConfigManager.default_config w1 with
            | (Returned _, w2) => (Returned ConfigManager.default_config, w2)
            | (Raised e, w2) => (Raised e, w2)
            end
        | (Raised e, w1) => (Raised e, w1)
        end in
    match r with
    | Returned c => (Returned tt, (ConfigManager.mk_instance path c, w'))
    | Raised e =>
        (Raised e,
         (ConfigManager.mk_instance path (ConfigManager.config self), w'))
    end.
Proof.
  unfold ConfigManager.__init__, ConfigManager.default_config_path,
    ConfigManager._load_config, ConfigManager._create_default_config,
    ConfigManager.self_, ConfigManager.set_config,
    ConfigManager.set_config_path, ConfigManager.os, ConfigManager.os_read,
    bind, ret.
  destruct config_path as [p|]; cbn [truthy default];
    [destruct (String.eqb p ""); cbn [negb]|]; cbn;
    (destruct (path_exists _ w); cbn;
     [ by destruct (yaml_load_file _ w) as [[c|e] w']
     | destruct (makedirs _ w) as [[[]|e] w1]; cbn; [|done];
       by destruct (yaml_dump_file _ _ w1) as [[[]|e] w2] ]).
Qed.

Lemma new_eq config_path w :
  ConfigManager.new config_path w
  = match ConfigManager.__init__ config_path (ConfigManager.blank, w) with
    | (Returned _, (self, w')) => (Returned self, w')
    | (Raised e, (_, w')) => (Raised e, w')
    end.
Proof. reflexivity. Qed.

(** ** The configuration path *)

(** X6: an empty path counts as no path.  [__init__] called with [""]
    does what it does with [None]; and whether or not loading then
    fails, [config_path] is the path given when that is a non-empty
    string and the default path in the home directory otherwise. *)
Theorem init_config_path config_path self w :
  ConfigManager.__init__ (Some "") (self, w)
  = ConfigManager.__init__ None (self, w)
  /\ ConfigManager.config_path
       (ConfigManager.__init__ config_path (self, w)).2.1
     = match config_path with
       | Some (String c p) => String c p
       | _ => path_join [expanduser "~" w; ".research_prep_agent";
                         "config.yaml"]
       end.
Proof.
  split; [by rewrite !init_eq|].
  rewrite init_eq. cbv zeta.
  set (path := if truthy config_path then _ else _).
  assert (Hpath : path = match config_path with
                         | Some (String c p) => String c p
                         | _ => path_join [expanduser "~" w;
                                           ".research_prep_agent";
                                           "config.yaml"]
                         end)
    by (subst path; by destruct config_path as [[|c p]|]).
  rewrite <- Hpath.
  by destruct (if path_exists path w then _ else _) as [[c|e] w'].
Qed.

(** ** Reading the configuration *)

(** X7: what [get_credentials] does on every configuration.  It changes
    neither the manager nor the machine.  It raises exactly when the
    configuration, or its ["credentials"] entry, is not a dict, and the
    exception is then an [AttributeError]; a missing ["credentials"]
    entry or a missing service gives the empty dict, never a
    [KeyError]. *)
Theorem get_credentials_outcome self w service :
  let out := ConfigManager.get_credentials service (self, w) in
  out.2 = (self, w)
  /\ (raises "AttributeError" out.1 = true <->
      is_dict (ConfigManager.config self) = false
      \/ exists (d : gmap string pyval) (v : pyval),
           ConfigManager.config self = PDict d
           /\ d !! "credentials" = Some v /\ is_dict v = false)
  /\ (raises "AttributeError" out.1 = false ->
      exists v : pyval, out.1 = Returned v)
  /\ (forall d : gmap string pyval,
        ConfigManager.config self = PDict d ->
        d !! "credentials" = None ->
        out.1 = Returned (PDict ∅))
  /\ (forall d creds : gmap string pyval,
        ConfigManager.config self = PDict d ->
        d !! "credentials" = Some (PDict creds) ->
        out.1 = Returned (default (PDict ∅) (creds !! service))).
Proof.
  intros out. subst out. rewrite get_credentials_cases. cbn [fst snd].
  split; [done|].
  destruct (ConfigManager.config self) as [| | | | | |d] eqn:Hc.
  1-6: by (split; [split; [by left | done]|];
           split; [done|]; split; intros; discriminate).
  destruct (d !! "credentials") as [v|] eqn:Hv.
  - destruct (is_dict v) eqn:Hdict.
    + destruct v as [| | | | | |creds]; try discriminate Hdict.
      split; [split; [done|]|].
      { intros [Hd|(d' & v & [= <-] & Hv' & Hnd)]; [done|].
        rewrite Hv in Hv'. by injection Hv' as <-. }
      split; [intros _; by eexists|].
      split; intros; simplify_eq; done.
    + assert (Hout :
        match v with
        | PDict creds => Returned (default (PDict ∅) (creds !! service))
        | _ => Raised (AttributeError v "get")
        end = Raised (AttributeError v "get")) by (by destruct v).
      rewrite Hout.
      split; [split; [intros _; right; by eexists _, _ | done]|].
      split; [done|].
      split; intros; simplify_eq; done.
  - split; [split; [done|]|].
    { intros [Hd|(d' & v & [= <-] & Hv' & Hnd)]; [done|congruence]. }
    split; [intros _; by eexists|].
    split; intros; simplify_eq; done.
Qed.

(** ** Updating the configuration *)

(** X8: [update_config] merges shallowly, and in memory first.  On a
    manager whose configuration is a dict, the configuration afterwards
    holds, for every key, the value of the update if the update has the
    key and the old value otherwise; the merged configuration is then
    dumped to [config_path], once.  The manager holds the merged
    configuration whether the dump returned or raised. *)
Theorem update_config_merges self w (c d : gmap string pyval) :
  ConfigManager.config self = PDict d ->
  let out := ConfigManager.update_config c (self, w) in
  exists merged : gmap string pyval,
    out.2.1 = ConfigManager.mk_instance (ConfigManager.config_path self)
                (PDict merged)
    /\ (out.1, out.2.2)
       = yaml_dump_file (ConfigManager.config_path self) (PDict merged) w
    /\ forall k : string,
         merged !! k = match c !! k with
                       | Some v => Some v
                       | None => d !! k
                       end.
Proof.
  intros Hd out. subst out. rewrite (update_config_dict _ _ _ d Hd).
  exists (c ∪ d). cbv zeta.
  destruct (yaml_dump_file _ _ w) as [r w'].
  split; [done|]. split; [done|].
  intros k. rewrite lookup_union. by destruct (c !! k), (d !! k).
Qed.

(** X9: a configuration that is not a dict.  When the configuration is
    [None] (an empty file), a string, a number or a list,
    [get_user_profile], [get_job_search_config] and [get_credentials]
    raise [AttributeError], and so does [update_config], before anything
    is saved: the manager and the machine stay as they are.
    [get_config] still returns the value. *)
Theorem non_dict_config_raises self w service (c : gmap string pyval) :
  is_dict (ConfigManager.config self) = false ->
  ConfigManager.get_user_profile (self, w)
  = (Raised (AttributeError (ConfigManager.config self) "get"), (self, w))
  /\ ConfigManager.get_job_search_config (self, w)
     = (Raised (AttributeError (ConfigManager.config self) "get"), (self, w))
  /\ ConfigManager.get_credentials service (self, w)
     = (Raised (AttributeError (ConfigManager.config self) "get"), (self, w))
  /\ ConfigManager.update_config c (self, w)
     = (Raised (AttributeError (ConfigManager.config self) "update"),
        (self, w))
  /\ ConfigManager.get_config (self, w)
     = (Returned (ConfigManager.config self), (self, w)).
Proof.
  intros Hnd.
  unfold ConfigManager.get_user_profile, ConfigManager.get_job_search_config,
    ConfigManager.get_credentials, ConfigManager.update_config,
    ConfigManager.get_config, ConfigManager.self_, bind, of_result, ret.
  cbn [fst snd].
  rewrite !(py_get_non_dict _ _ _ Hnd), (py_update_non_dict _ _ Hnd).
  done.
Qed.

(** X10: an update replaces a section as a whole.  After
    [update_config] with a ["credentials"] section, [get_credentials]
    returns the empty dict for every service that section does not
    name, whatever credentials the service had before. *)
Theorem update_config_replaces_credentials self w service
    (c d creds : gmap string pyval) :
  ConfigManager.config self = PDict d ->
  c !! "credentials" = Some (PDict creds) ->
  creds !! service = None ->
  (ConfigManager.get_credentials service
     (ConfigManager.update_config c (self, w)).2).1
  = Returned (PDict ∅).
Proof.
  intros Hd Hc Hs. rewrite (update_config_dict _ _ _ d Hd). cbv zeta.
  destruct (yaml_dump_file _ _ w) as [r w']. cbn [snd].
  rewrite get_credentials_cases. cbn [fst ConfigManager.config].
  rewrite lookup_union, Hc.
  destruct (d !! "credentials"); cbn; by rewrite Hs.
Qed.

(** X11: two updates in a row leave the configuration one update with
    both would: the later update wins on the keys they share.  In
    particular an update made twice is the update made once. *)
Theorem update_config_twice self w (c1 c2 d : gmap string pyval) :
  ConfigManager.config self = PDict d ->
  (ConfigManager.update_config c2
     (ConfigManager.update_config c1 (self, w)).2).2.1
  = (ConfigManager.update_config (c2 ∪ c1) (self, w)).2.1
  /\ (ConfigManager.update_config c1
        (ConfigManager.update_config c1 (self, w)).2).2.1
     = (ConfigManager.update_config c1 (self, w)).2.1.
Proof.
  intros Hd.
  assert (Hstep : forall (c e : gmap string pyval) s v,
    ConfigManager.config s = PDict e ->
    (ConfigManager.update_config c (s, v)).2.1
    = ConfigManager.mk_instance (ConfigManager.config_path s)
        (PDict (c ∪ e))).
  { intros c e s v He. rewrite (update_config_dict _ _ _ e He). cbv zeta.
    by destruct (yaml_dump_file _ _ v). }
  assert (Hnext : forall c,
    (ConfigManager.update_config c
       (ConfigManager.update_config c1 (self, w)).2).2.1
    = ConfigManager.mk_instance (ConfigManager.config_path self)
        (PDict (c ∪ (c1 ∪ d)))).
  { intros c.
    destruct (ConfigManager.update_config c1 (self, w)) as [r [s v]] eqn:Hu.
    pose proof (Hstep c1 d self w Hd) as Hs. rewrite Hu in Hs.
    cbn [fst snd] in *. rewrite (Hstep c (c1 ∪ d) s v) by by rewrite Hs.
    by rewrite Hs. }
  rewrite !Hnext, !(Hstep _ d self w Hd). split.
  - by rewrite (assoc_L (∪)).
  - by rewrite (assoc_L (∪)), (idemp_L (∪)).
Qed.

End config_manager.

(** ** Construction *)

Section construction.

Context {world : Type} {os_impl : OS world}.

Implicit Types (self : ConfigManager.instance) (w : world).

Lemma truthy_non_empty (path : string) :
  path ≠ "" -> truthy (Some path) = true.
Proof. intros Hp. cbn. by apply String.eqb_neq in Hp as ->. Qed.

Lemma new_resolved (path : string) w :
  path ≠ "" ->
  ConfigManager.new (Some path) w
  = if path_exists path w then
      match yaml_load_file path w with
      | (Returned v, w') =>
          (Returned (ConfigManager.mk_instance path v), w')
      | (Raised e, w') => (Raised e, w')
      end
    else
      match makedirs (dirname path) w with
      | (Returned _, w1) =>
          match yaml_dump_file path ConfigManager.default_config w1 with
          | (Returned _, w2) =>
              (Returned (ConfigManager.mk_instance path
                           ConfigManager.default_config), w2)
          | (Raised e, w2) => (Raised e, w2)
          end
      | (Raised e, w1) => (Raised e, w1)
      end.
Proof.
  intros Hp. rewrite new_eq, init_eq, (truthy_non_empty _ Hp).
  cbn [default from_option]. cbv zeta. change (Datatypes.id path) with path.
  destruct (path_exists path w).
  - by destruct (yaml_load_file path w) as [[v|e] w'].
  - destruct (makedirs (dirname path) w) as [[[]|e] w1]; [|done].
    by destruct (yaml_dump_file path _ w1) as [[[]|e] w2].
Qed.

(** X12: an existing file is loaded as it is and never rewritten.  When
    the file at a non-empty [config_path] exists, [ConfigManager] does
    what loading the file does: it raises what the load raises, and
    otherwise holds the value loaded, dict or not, with the machine as
    the load left it; no directory is made and nothing is dumped. *)
Theorem existing_file_loaded_as_is (path : string) w :
  path ≠ "" ->
  path_exists path w = true ->
  ConfigManager.new (Some path) w
  = match yaml_load_file path w with
    | (Returned v, w') => (Returned (ConfigManager.mk_instance path v), w')
    | (Raised e, w') => (Raised e, w')
    end.
Proof. intros Hp Hex. by rewrite (new_resolved _ _ Hp), Hex. Qed.

End construction.

(** ** Persistence *)

Lemma mem_os_laws : OSLaws MemOS.world.
Proof.
  split.
  - intros path data w w' [= <-]. cbn. unfold MemOS.path_exists.
    apply bool_decide_eq_true. rewrite lookup_insert_eq. by eexists.
  - intros path data w w' [= <-]. cbn. unfold MemOS.yaml_load_file.
    by rewrite lookup_insert_eq.
Qed.

Section persistence.

Context {world : Type} {os_impl : OS world} {laws : OSLaws world}.

Implicit Types (self : ConfigManager.instance) (w : world).

(** X13: an update that was saved is read back.  When files keep what
    is dumped into them, and [update_config] has returned, a new
    [ConfigManager] on the same path is the updated manager: same path,
    same configuration, and constructing it changes nothing on the
    machine. *)
Theorem update_config_persists self self' w w' (c : gmap string pyval) :
  ConfigManager.config_path self ≠ "" ->
  ConfigManager.update_config c (self, w) = (Returned tt, (self', w')) ->
  ConfigManager.new (Some (ConfigManager.config_path self)) w'
  = (Returned self', w').
Proof.
  intros Hp Hu.
  destruct (ConfigManager.config self) as [| | | | | |d] eqn:Hd;
    try (rewrite update_config_non_dict in Hu by (by rewrite Hd);
         discriminate Hu).
  rewrite (update_config_dict _ _ _ d Hd) in Hu. cbv zeta in Hu.
  destruct (yaml_dump_file _ _ w) as [r w1] eqn:Hdump.
  injection Hu as -> <- <-.
  rewrite (new_resolved _ _ Hp), (dump_exists _ _ _ _ Hdump).
  by rewrite (dump_load _ _ _ _ Hdump).
Qed.

(** X14: the first construction writes the defaults, the next one reads
    them.  When files keep what is dumped into them and the file at a
    non-empty [config_path] does not exist, a [ConfigManager] that is
    constructed holds the default configuration, the file exists
    afterwards, and constructing a manager on the path again gives the
    same manager and leaves the machine as it is. *)
Theorem first_construction_then_reload (path : string) w w' cm :
  path ≠ "" ->
  path_exists path w = false ->
  ConfigManager.new (Some path) w = (Returned cm, w') ->
  cm = ConfigManager.mk_instance path ConfigManager.default_config
  /\ path_exists path w' = true
  /\ ConfigManager.new (Some path) w' = (Returned cm, w').
Proof.
  intros Hp Hex Hnew. rewrite (new_resolved _ _ Hp), Hex in Hnew.
  destruct (makedirs (dirname path) w) as [[[]|e] w1]; [|discriminate Hnew].
  destruct (yaml_dump_file path _ w1) as [[[]|e] w2] eqn:Hdump;
    [|discriminate Hnew].
  injection Hnew as <- <-.
  pose proof (dump_exists _ _ _ _ Hdump) as Hex'.
  split; [done|]. split; [done|].
  by rewrite (new_resolved _ _ Hp), Hex', (dump_load _ _ _ _ Hdump).
Qed.

End persistence.

(** ** The properties above on the machine in memory *)

Lemma update_config_merges_witness :
  let d : gmap string pyval := {["name" := PStr "Sam"]} in
  let c : gmap string pyval := {["name" := PStr "Kim"]} in
  let self := ConfigManager.mk_instance "cfg.yaml" (PDict d) in
  let w : gmap string pyval := ∅ in
  ConfigManager.config self = PDict d
  /\ exists merged : gmap string pyval,
       (ConfigManager.update_config c (self, w)).2.1
       = ConfigManager.mk_instance (ConfigManager.config_path self)
           (PDict merged)
       /\ ((ConfigManager.update_config c (self, w)).1,
           (ConfigManager.update_config c (self, w)).2.2)
          = yaml_dump_file (ConfigManager.config_path self) (PDict merged) w
       /\ forall k : string,
            merged !! k = match c !! k with
                          | Some v => Some v
                          | None => d !! k
                          end.
Proof.
  split; [reflexivity|].
  apply (@update_config_merges (gmap string pyval) MemOS.mem_os
           (ConfigManager.mk_instance "cfg.yaml"
              (PDict {["name" := PStr "Sam"]}))
           ∅ {["name" := PStr "Kim"]} {["name" := PStr "Sam"]}).
  reflexivity.
Defined.

Lemma non_dict_config_raises_witness :
  let self := ConfigManager.mk_instance "cfg.yaml" PNone in
  let w : gmap string pyval := {["cfg.yaml" := PNone]} in
  let c : gmap string pyval := {["name" := PStr "Kim"]} in
  is_dict (ConfigManager.config self) = false
  /\ ConfigManager.get_user_profile (self, w)
     = (Raised (mk_exn "AttributeError"
                  "'NoneType' object has no attribute 'get'"), (self, w))
  /\ ConfigManager.get_job_search_config (self, w)
     = (Raised (mk_exn "AttributeError"
                  "'NoneType' object has no attribute 'get'"), (self, w))
  /\ ConfigManager.get_credentials "linkedin" (self, w)
     = (Raised (mk_exn "AttributeError"
                  "'NoneType' object has no attribute 'get'"), (self, w))
  /\ ConfigManager.update_config c (self, w)
     = (Raised (mk_exn "AttributeError"
                  "'NoneType' object has no attribute 'update'"), (self, w))
  /\ ConfigManager.get_config (self, w) = (Returned PNone, (self, w)).
Proof.
  split; [reflexivity|].
  apply (@non_dict_config_raises (gmap string pyval) MemOS.mem_os
           (ConfigManager.mk_instance "cfg.yaml" PNone)
           {["cfg.yaml" := PNone]} "linkedin" {["name" := PStr "Kim"]}).
  reflexivity.
Defined.

Lemma update_config_replaces_credentials_witness :
  let d : gmap string pyval :=
    {["credentials" :=
        PDict {["linkedin" := PDict {["username" := PStr "sam"]}]}]} in
  let creds : gmap string pyval :=
    {["indeed" := PDict {["api_key" := PStr "k"]}]} in
  let c : gmap string pyval := {["credentials" := PDict creds]} in
  let self := ConfigManager.mk_instance "cfg.yaml" (PDict d) in
  let w : gmap string pyval := ∅ in
  ConfigManager.config self = PDict d
  /\ c !! "credentials" = Some (PDict creds)
  /\ creds !! "linkedin" = None
  /\ (ConfigManager.get_credentials "linkedin" (self, w)).1
     = Returned (PDict {["username" := PStr "sam"]})
  /\ (ConfigManager.get_credentials "linkedin"
        (ConfigManager.update_config c (self, w)).2).1
     = Returned (PDict ∅).
Proof.
  split; [reflexivity|]. split; [reflexivity|]. split; [reflexivity|].
  split; [reflexivity|].
  apply (@update_config_replaces_credentials (gmap string pyval)
           MemOS.mem_os
           (ConfigManager.mk_instance "cfg.yaml"
              (PDict {["credentials" :=
                         PDict {["linkedin" :=
                                   PDict {["username" := PStr "sam"]}]}]}))
           ∅ "linkedin"
           {["credentials" :=
               PDict {["indeed" := PDict {["api_key" := PStr "k"]}]}]}
           {["credentials" :=
               PDict {["linkedin" := PDict {["username" := PStr "sam"]}]}]}
           {["indeed" := PDict {["api_key" := PStr "k"]}]});
    reflexivity.
Defined.

Lemma update_config_twice_witness :
  let d : gmap string pyval := {["name" := PStr "Sam"]} in
  let c1 : gmap string pyval := {["name" := PStr "Kim"]} in
  let c2 : gmap string pyval := {["phone" := PStr "1"]} in
  let self := ConfigManager.mk_instance "cfg.yaml" (PDict d) in
  let w : gmap string pyval := ∅ in
  ConfigManager.config self = PDict d
  /\ (ConfigManager.update_config c2
        (ConfigManager.update_config c1 (self, w)).2).2.1
     = (ConfigManager.update_config (c2 ∪ c1) (self, w)).2.1
  /\ (ConfigManager.update_config c1
        (ConfigManager.update_config c1 (self, w)).2).2.1
     = (ConfigManager.update_config c1 (self, w)).2.1.
Proof.
  split; [reflexivity|].
  apply (@update_config_twice (gmap string pyval) MemOS.mem_os
           (ConfigManager.mk_instance "cfg.yaml"
              (PDict {["name" := PStr "Sam"]}))
           ∅ {["name" := PStr "Kim"]} {["phone" := PStr "1"]}
           {["name" := PStr "Sam"]}).
  reflexivity.
Defined.

Lemma existing_file_loaded_as_is_witness :
  let w : gmap string pyval := {["cfg.yaml" := PNone]} in
  "cfg.yaml" ≠ ""
  /\ path_exists "cfg.yaml" w = true
  /\ ConfigManager.new (Some "cfg.yaml") w
     = (Returned (ConfigManager.mk_instance "cfg.yaml" PNone), w).
Proof.
  split; [discriminate|]. split; [reflexivity|].
  etrans;
    [apply (@existing_file_loaded_as_is (gmap string pyval) MemOS.mem_os
              "cfg.yaml" {["cfg.yaml" := PNone]});
     [discriminate | reflexivity]
    | reflexivity].
Defined.

Lemma update_config_persists_witness :
  let d : gmap string pyval := {["name" := PStr "Sam"]} in
  let c : gmap string pyval := {["name" := PStr "Kim"]} in
  let self := ConfigManager.mk_instance "cfg.yaml" (PDict d) in
  let self' := ConfigManager.mk_instance "cfg.yaml" (PDict (c ∪ d)) in
  let w : gmap string pyval := ∅ in
  let w' : gmap string pyval := {["cfg.yaml" := PDict (c ∪ d)]} in
  ConfigManager.config_path self ≠ ""
  /\ ConfigManager.update_config c (self, w) = (Returned tt, (self', w'))
  /\ ConfigManager.new (Some "cfg.yaml") w' = (Returned self', w').
Proof.
  split; [discriminate|]. split; [reflexivity|].
  apply (@update_config_persists (gmap string pyval) MemOS.mem_os
           mem_os_laws
           (ConfigManager.mk_instance "cfg.yaml"
              (PDict {["name" := PStr "Sam"]}))
           _ ∅ _ {["name" := PStr "Kim"]});
    [discriminate | reflexivity].
Defined.

Lemma first_construction_then_reload_witness :
  let w : gmap string pyval := ∅ in
  let w' : gmap string pyval :=
    {["cfg.yaml" := ConfigManager.default_config]} in
  let cm := ConfigManager.mk_instance "cfg.yaml"
              ConfigManager.default_config in
  "cfg.yaml" ≠ ""
  /\ path_exists "cfg.yaml" w = false
  /\ ConfigManager.new (Some "cfg.yaml") w = (Returned cm, w')
  /\ cm = ConfigManager.mk_instance "cfg.yaml" ConfigManager.default_config
  /\ path_exists "cfg.yaml" w' = true
  /\ ConfigManager.new (Some "cfg.yaml") w' = (Returned cm, w').
Proof.
  split; [discriminate|]. split; [reflexivity|]. split; [reflexivity|].
  apply (@first_construction_then_reload (gmap string pyval) MemOS.mem_os
           mem_os_laws "cfg.yaml" ∅);
    [discriminate | reflexivity | reflexivity].
Defined.

(** * Properties of [main] *)

Section main_properties.

Context {world : Type} {os_impl : OS world}.

Lemma print_eq (line : string) (p : @Main.process world) :
  Main.print line p
  = (Returned tt,
     Main.mk_process (Main.config_manager p) (Main.machine p)
       (Main.stdout p ++ [line])).
Proof. reflexivity. Qed.

Lemma bind_print {A} (line : string) (k : unit -> M Main.process A)
    (p : @Main.process world) :
  bind (Main.print line) k p
  = k tt (Main.mk_process (Main.config_manager p) (Main.machine p)
            (Main.stdout p ++ [line])).
Proof. reflexivity. Qed.

Lemma bind_ret {S A B} (a : A) (k : A -> M S B) (s : S) :
  bind (ret a) k s = k a s.
Proof. reflexivity. Qed.

(** Runs [main] without [--config] on each of the eight settings of
    the action flags. *)
Ltac main_compute args :=
  destruct (Main.search args), (Main.analyze args), (Main.prepare args);
  cbn [orb negb Nat.b2n];
  repeat (rewrite ?bind_print, ?bind_ret, ?print_eq;
          cbn [Main.config_manager Main.machine Main.stdout]);
  rewrite <- ?(assoc_L (++)); cbn [app].

Lemma main_returns (args : Main.Namespace) (p : @Main.process world) :
  truthy (Main.config args) = false ->
  exists out : list string,
    Main.main args p
    = (Returned tt,
       Main.mk_process (Main.config_manager p) (Main.machine p)
         (Main.stdout p ++ out))
    /\ (3 <= length out)%nat.
Proof.
  intros Hcfg. unfold Main.main. rewrite Hcfg. destruct p as [cm w out0].
  main_compute args; (eexists; split; [reflexivity|]); cbn [length]; lia.
Qed.

(** X15: what [main] prints without [--config] (or with an empty one).
    It returns, leaves the singleton and the machine as they are, and
    appends to the output the two banner lines followed by, when no
    action flag is set, the one line that says so, and otherwise one
    "not yet implemented" line for each flag set: two lines plus one
    for each flag, three at least. *)
Theorem main_without_config (args : Main.Namespace)
    (p : @Main.process world) :
  truthy (Main.config args) = false ->
  exists out : list string,
    Main.main args p
    = (Returned tt,
       Main.mk_process (Main.config_manager p) (Main.machine p)
         (Main.stdout p ++ out))
    /\ take 2 out = ["Research and Preparation Agent";
                     "-----------------------------"]
    /\ length out
       = (2 + Nat.max 1 (Nat.b2n (Main.search args)
                         + Nat.b2n (Main.analyze args)
                         + Nat.b2n (Main.prepare args)))%nat
    /\ ("No action specified. Use --search, --analyze, or --prepare." ∈ out
        <-> Main.search args || Main.analyze args || Main.prepare args
            = false)
    /\ ("Job search functionality not yet implemented." ∈ out
        <-> Main.search args = true)
    /\ ("Job analysis functionality not yet implemented." ∈ out
        <-> Main.analyze args = true)
    /\ ("Materials preparation functionality not yet implemented." ∈ out
        <-> Main.prepare args = true).
Proof.
  intros Hcfg. unfold Main.main. rewrite Hcfg. destruct p as [cm w out0].
  main_compute args;
    (eexists; split; [reflexivity|]);
    (split; [reflexivity|]); (split; [reflexivity|]);
    repeat split; intros Hin; try done;
    try (apply list_elem_of_In; cbn; tauto);
    apply list_elem_of_In in Hin; cbn in Hin;
    repeat (destruct Hin as [Hin|Hin]; [discriminate Hin|]); done.
Qed.

(** X16: what [--config] adds.  With a non-empty [--config], [main]
    first runs [__init__] on the singleton with that path.  If that
    raises, [main] raises the same exception and has printed nothing;
    otherwise [main] goes on as it does without [--config], on the
    singleton and the machine [__init__] has left. *)
Theorem main_with_config (args : Main.Namespace) (p : @Main.process world) :
  truthy (Main.config args) = true ->
  match ConfigManager.__init__ (Main.config args)
          (Main.config_manager p, Main.machine p) with
  | (Returned _, (cm, w)) =>
      Main.main args p
      = Main.main
          (Main.mk_Namespace None (Main.search args) (Main.analyze args)
             (Main.prepare args))
          (Main.mk_process cm w (Main.stdout p))
  | (Raised e, (cm, w)) =>
      Main.main args p = (Raised e, Main.mk_process cm w (Main.stdout p))
  end.
Proof.
  intros Hcfg.
  destruct (ConfigManager.__init__ _ _) as [[[]|e] [cm w]] eqn:Hinit.
  - unfold Main.main. rewrite Hcfg.
    cbn [truthy Main.config Main.search Main.analyze Main.prepare].
    rewrite bind_ret. unfold bind at 1. unfold Main.on_config_manager.
    by rewrite Hinit.
  - unfold Main.main. rewrite Hcfg. unfold bind at 1.
    unfold Main.on_config_manager. by rewrite Hinit.
Qed.

End main_properties.

Section run_properties.

Context {world : Type} {os_impl : OS world} {laws : OSLaws world}.

(** X17: running the program creates the configuration file.  When
    files keep what is dumped into them, no [--config] is given and the
    default configuration file does not exist, a run that ends normally
    has created that file with the default configuration in it, whatever
    the action flags, and has printed three lines at least. *)
Theorem run_creates_default_config (args : Main.Namespace) (w w' : world)
    (out : list string) :
  let path := path_join [expanduser "~" w; ".research_prep_agent";
                         "config.yaml"] in
  truthy (Main.config args) = false ->
  path_exists path w = false ->
  Main.run args w = (Returned out, w') ->
  path_exists path w' = true
  /\ yaml_load_file path w' = (Returned ConfigManager.default_config, w')
  /\ (3 <= length out)%nat.
Proof.
  intros path Hcfg Hex Hrun. unfold Main.run in Hrun.
  rewrite new_eq, init_eq in Hrun. cbn [truthy] in Hrun. cbv zeta in Hrun.
  fold path in Hrun. rewrite Hex in Hrun.
  destruct (makedirs (dirname path) w) as [[[]|e] w1]; [|discriminate Hrun].
  destruct (yaml_dump_file path _ w1) as [[[]|e] w2] eqn:Hdump;
    [|discriminate Hrun].
  destruct (main_returns args
              (Main.mk_process
                 (ConfigManager.mk_instance path ConfigManager.default_config)
                 w2 []) Hcfg) as (out' & Hmain & Hlen).
  rewrite Hmain in Hrun. cbn in Hrun. injection Hrun as <- <-.
  split; [by apply (dump_exists _ _ _ _ Hdump)|].
  by split; [apply (dump_load _ _ _ _ Hdump)|].
Qed.

End run_properties.

Lemma main_without_config_witness :
  let args := Main.mk_Namespace (Some "") true false true in
  let p := Main.mk_process (ConfigManager.mk_instance "cfg.yaml" PNone)
             (∅ : gmap string pyval) ["earlier output"] in
  truthy (Main.config args) = false
  /\ exists out : list string,
       Main.main args p
       = (Returned tt,
          Main.mk_process (Main.config_manager p) (Main.machine p)
            (Main.stdout p ++ out))
       /\ take 2 out = ["Research and Preparation Agent";
                        "-----------------------------"]
       /\ length out
          = (2 + Nat.max 1 (Nat.b2n (Main.search args)
                            + Nat.b2n (Main.analyze args)
                            + Nat.b2n (Main.prepare args)))%nat
       /\ ("No action specified. Use --search, --analyze, or --prepare."
             ∈ out
           <-> Main.search args || Main.analyze args || Main.prepare args
               = false)
       /\ ("Job search functionality not yet implemented." ∈ out
           <-> Main.search args = true)
       /\ ("Job analysis functionality not yet implemented." ∈ out
           <-> Main.analyze args = true)
       /\ ("Materials preparation functionality not yet implemented." ∈ out
           <-> Main.prepare args = true).
Proof.
  split; [reflexivity|].
  apply (@main_without_config (gmap string pyval) MemOS.mem_os
           (Main.mk_Namespace (Some "") true false true)
           (Main.mk_process (ConfigManager.mk_instance "cfg.yaml" PNone)
              ∅ ["earlier output"])).
  reflexivity.
Defined.

Lemma main_with_config_witness :
  let args := Main.mk_Namespace (Some "cfg.yaml") false false false in
  let p := Main.mk_process (ConfigManager.mk_instance "old.yaml" PNone)
             ({["cfg.yaml" := PStr "text"]} : gmap string pyval) [] in
  truthy (Main.config args) = true
  /\ Main.main args p
     = Main.main (Main.mk_Namespace None false false false)
         (Main.mk_process (ConfigManager.mk_instance "cfg.yaml" (PStr "text"))
            {["cfg.yaml" := PStr "text"]} []).
Proof.
  split; [reflexivity|].
  exact (@main_with_config (gmap string pyval) MemOS.mem_os
           (Main.mk_Namespace (Some "cfg.yaml") false false false)
           (Main.mk_process (ConfigManager.mk_instance "old.yaml" PNone)
              {["cfg.yaml" := PStr "text"]} []) eq_refl).
Defined.

Lemma run_creates_default_config_witness :
  let args := Main.mk_Namespace None false false false in
  let w : gmap string pyval := ∅ in
  let path := "/home/user/.research_prep_agent/config.yaml" in
  let w' : gmap string pyval := {[path := ConfigManager.default_config]} in
  let out := ["Research and Preparation Agent";
              "-----------------------------";
              "No action specified. Use --search, --analyze, or --prepare."] in
  truthy (Main.config args) = false
  /\ path_exists path w = false
  /\ Main.run args w = (Returned out, w')
  /\ path_exists path w' = true
  /\ yaml_load_file path w' = (Returned ConfigManager.default_config, w')
  /\ (3 <= length out)%nat.
Proof.
  split; [reflexivity|]. split; [reflexivity|]. split; [reflexivity|].
  apply (@run_creates_default_config (gmap string pyval) MemOS.mem_os
           mem_os_laws (Main.mk_Namespace None false false false) ∅);
    reflexivity.
Defined.
